(** * The Janus recorder (record.c) over a remote archive socket

    A shallow embedding of [record.c]: the recorder object, its creation,
    the frame writer, the close operation and the TCP helper
    [send_tcp_content], together with the properties of the recording
    protocol that hold of them. *)

From Stdlib Require Import ZArith List String Ascii Bool Lia.
From Stdlib Require Import Strings.Byte DecimalString.
Import ListNotations.

Local Open Scope Z_scope.

(** ** Machine integers

    C integers are values of [Z] with the wrap-around written out.  A
    conversion to a signed type that cannot hold the value keeps the low
    bits, as the compilers Janus is built with do. *)

Module MachineInt.

Definition wrap_unsigned (bits : Z) (x : Z) : Z := x mod 2 ^ bits.

Definition wrap_signed (bits : Z) (x : Z) : Z :=
  let u := x mod 2 ^ bits in
  if u <? 2 ^ (bits - 1) then u else u - 2 ^ bits.

(** [size_t] on the 64-bit hosts the recorder is built for. *)
Definition to_size_t (x : Z) : Z := wrap_unsigned 64 x.
Definition SIZE_MAX : Z := 2 ^ 64 - 1.

Definition to_uint16 (x : Z) : Z := wrap_unsigned 16 x.
Definition to_uint32 (x : Z) : Z := wrap_unsigned 32 x.
Definition to_int (x : Z) : Z := wrap_signed 32 x.
Definition to_gint64 (x : Z) : Z := wrap_signed 64 x.

End MachineInt.
Import MachineInt.

(** ** Bytes and byte order *)

Definition byte_of_Z (z : Z) : byte :=
  match Byte.of_N (Z.to_N (z mod 256)) with
  | Some b => b
  | None => x00
  end.

Definition Z_of_byte (b : byte) : Z := Z.of_N (Byte.to_N b).

(** The [n] low-order bytes of [x], least significant first. *)
Fixpoint le_bytes (n : nat) (x : Z) : list byte :=
  match n with
  | O => []
  | S k => byte_of_Z (x mod 256) :: le_bytes k (x / 256)
  end.

Definition be_bytes (n : nat) (x : Z) : list byte := rev (le_bytes n x).

Fixpoint le_value (bs : list byte) : Z :=
  match bs with
  | [] => 0
  | b :: rest => Z_of_byte b + 256 * le_value rest
  end.

Definition be_value (bs : list byte) : Z := le_value (rev bs).

(** The bytes of a C string, without the terminating NUL. *)
Definition bytes_of (s : string) : list byte := list_byte_of_string s.

Definition strlen (s : string) : Z := Z.of_nat (String.length s).

(** [g_snprintf(dst, size, "%s...", ...)] keeps at most [size - 1]
    characters of the formatted text; with [size = 0] nothing is written
    and the (zeroed) destination stays the empty string. *)
Definition g_snprintf (size : Z) (text : string) : string :=
  String.substring 0 (Z.to_nat (size - 1)) text.

(** ** What the host supplies

    The recorder is compiled against declarations that are not part of
    [record.c]: the byte order of the machine, the size [RCBUFSIZ] of the
    staging buffer [rc->buf] (record.h), stdio's [BUFSIZ], libgen's
    [dirname] and [basename], and the Jansson serializer.  The compiler
    supplies one thing more: the order in which the two operands of a
    binary operator are evaluated, which C leaves unspecified. *)

Inductive json_value :=
| json_string (s : string)
| json_integer (z : Z).

(** A JSON object in insertion order ([JSON_PRESERVE_ORDER]). *)
Definition json_t := list (string * json_value).

Class Host := {
  little_endian : bool;
  left_operand_first : bool;
  RCBUFSIZ : Z;
  BUFSIZ : Z;
  dirname : string -> string;
  basename : string -> string;
  json_dumps : json_t -> string
}.

Section ByteOrder.
Context `{Host}.

(** The object representation of an [n]-byte integer. *)
Definition stored (n : nat) (x : Z) : list byte :=
  if little_endian then le_bytes n x else be_bytes n x.

Definition loaded (bs : list byte) : Z :=
  if little_endian then le_value bs else be_value bs.

(** [htons] and [htonl] (arpa/inet.h): the integer whose object
    representation is the network-order encoding of the argument. *)
Definition htons (x : Z) : Z := loaded (be_bytes 2 (to_uint16 x)).
Definition htonl (x : Z) : Z := loaded (be_bytes 4 (to_uint32 x)).

(** The macro of record.c (line 33):
    [#define htonll(x) ((1==htonl(1)) ? (x) :
       ((gint64)htonl((x) & 0xFFFFFFFF) << 32) | htonl((x) >> 32))]
    at a [gint64] argument that is a value.  An argument that is a call
    is made wherever the macro names it: see [htonll_real_time] for line
    338. *)
Definition htonll (x : Z) : Z :=
  if htonl 1 =? 1 then x
  else Z.lor (to_gint64 (Z.shiftl (htonl (Z.land x 4294967295)) 32))
             (htonl (Z.shiftr x 32)).

End ByteOrder.

Section ByteOrderBack.
Context `{Host}.

(** [ntohl] (arpa/inet.h): the integer that the object representation of
    the argument encodes in network order. *)
Definition ntohl (x : Z) : Z := be_value (stored 4 (to_uint32 x)).

(** The macro of record.c (line 34):
    [#define ntohll(x) ((1==ntohl(1)) ? (x) :
       ((gint64)ntohl((x) & 0xFFFFFFFF) << 32) | ntohl((x) >> 32))]
    at a [gint64] argument. *)
Definition ntohll (x : Z) : Z :=
  if ntohl 1 =? 1 then x
  else Z.lor (to_gint64 (Z.shiftl (ntohl (Z.land x 4294967295)) 32))
             (ntohl (Z.shiftr x 32)).

End ByteOrderBack.


(** ** The world outside the recorder

    Everything [record.c] reaches through a system call or a helper of
    another file: the TCP connection to the archive server, the local file
    system, the resolver, the clock and the random source.  The answers
    the world will give are part of the state, so that every function
    stays executable. *)

(** What one [sendto] call on the connection does. *)
Inductive send_result :=
| send_error                (* returns -1 *)
| send_accepts (n : nat).   (* takes at most [n] of the bytes offered *)

Inductive stat_result :=
| stat_enoent               (* -1 with errno = ENOENT *)
| stat_failure              (* -1 with another errno *)
| stat_directory            (* 0 and S_ISDIR *)
| stat_other.               (* 0 and not a directory *)

Record connection := mkConnection {
  sock_open : bool;               (* the descriptor is open and connected *)
  wire : list byte;               (* every byte the peer has received *)
  pending : list send_result;     (* what the next [sendto] calls do; once
                                     exhausted a call takes all it is given *)
  closes : nat                    (* calls of [close] on the descriptor *)
}.

Record filesystem := mkFilesystem {
  stat_of : string -> stat_result;
  mkdir_ok : string -> bool;
  rename_ok : string -> string -> bool;
  renames : list (string * string)   (* [rename] calls made, oldest first *)
}.

Record world := mkWorld {
  conn : connection;
  fs : filesystem;
  host_found : bool;              (* [gethostbyname] finds the archive host *)
  socket_fd : Z;                  (* what [socket] returns *)
  connect_ok : bool;
  real_time : nat -> Z;           (* successive [janus_get_real_time] values *)
  clock_reads : nat;
  random_uint32 : Z               (* [janus_random_uint32] *)
}.

Definition set_conn (w : world) (c : connection) : world :=
  mkWorld c (fs w) (host_found w) (socket_fd w) (connect_ok w)
          (real_time w) (clock_reads w) (random_uint32 w).

Definition set_fs (w : world) (f : filesystem) : world :=
  mkWorld (conn w) f (host_found w) (socket_fd w) (connect_ok w)
          (real_time w) (clock_reads w) (random_uint32 w).

(** [janus_get_real_time()] (utils.h). *)
Definition janus_get_real_time (w : world) : Z * world :=
  (real_time w (clock_reads w),
   mkWorld (conn w) (fs w) (host_found w) (socket_fd w) (connect_ok w)
           (real_time w) (S (clock_reads w)) (random_uint32 w)).

(** [connect(fd, ...)]: on success the descriptor is a live connection. *)
Definition sys_connect (w : world) : Z * world :=
  if connect_ok w
  then (0, set_conn w (mkConnection true (wire (conn w)) (pending (conn w))
                                    (closes (conn w))))
  else (-1, w).

(** [close(fd)] on the recorder's descriptor. *)
Definition sys_close (w : world) : world :=
  set_conn w (mkConnection false (wire (conn w)) (pending (conn w))
                           (S (closes (conn w)))).

(** [sendto(sfd, data, n, 0, NULL, 0)], where [data] is the memory at the
    pointer: the [ssize_t] result and the world afterwards.  A closed
    descriptor fails every call. *)
Definition sys_sendto (w : world) (data : list byte) (n : Z) : Z * world :=
  let c := conn w in
  if negb (sock_open c) then (-1, w)
  else match pending c with
       | [] =>
           (n, set_conn w (mkConnection true
                             (wire c ++ firstn (Z.to_nat n) data) []
                             (closes c)))
       | send_error :: rest =>
           (-1, set_conn w (mkConnection true (wire c) rest (closes c)))
       | send_accepts k :: rest =>
           let taken := Z.min (Z.of_nat k) n in
           (taken, set_conn w (mkConnection true
                                 (wire c ++ firstn (Z.to_nat taken) data) rest
                                 (closes c)))
       end.

(** [rename(oldpath, newpath)]: 0 on success. *)
Definition sys_rename (w : world) (oldpath newpath : string) : Z * world :=
  let f := fs w in
  let w' := set_fs w (mkFilesystem (stat_of f) (mkdir_ok f) (rename_ok f)
                                   (renames f ++ [(oldpath, newpath)])) in
  (if rename_ok f oldpath newpath then 0 else -1, w').

(** ** [send_tcp_content]  (record.c, lines 414-426)

    [sent] and [sentoffset] are [size_t]: the [ssize_t] result of [sendto]
    is converted on assignment, the test [sent<0] compares an unsigned
    value with zero and so never holds, and [sentoffset+=sent] wraps.  The
    value returned is [sentoffset] converted to [int]. *)
Fixpoint send_loop (fuel : nat) (w : world) (buf : list byte)
                   (len sentoffset : Z) : option (Z * world) :=
  if sentoffset <? len then
    match fuel with
    | O => None
    | S fuel' =>
        let '(r, w') :=
          sys_sendto w (skipn (Z.to_nat sentoffset) buf)
                     (len - sentoffset) in
        let sent := to_size_t r in
        if sent <? 0 then Some (-1, w')
        else send_loop fuel' w' buf len (to_size_t (sentoffset + sent))
    end
  else Some (to_int sentoffset, w).

(** Iterations the loop can need: one for each pending answer of the
    connection and one more. *)
Definition send_fuel (w : world) : nat := S (List.length (pending (conn w))).

(** [buf] holds the bytes at the pointer passed ([len] of them at least);
    the last case of the result is never taken
    ([send_tcp_content_terminates]). *)
Definition send_tcp_content (w : world) (buf : list byte) (len : Z)
  : Z * world :=
  match send_loop (send_fuel w) w buf (to_size_t len) 0 with
  | Some res => res
  | None => (-1, w)
  end.


(** ** The recorder object  (record.h) *)

(** Modelled from the spec: the enumeration of record.h, the media types
    Audio, Video and Data of section 3. *)
Inductive janus_recorder_medium :=
| JANUS_RECORDER_AUDIO
| JANUS_RECORDER_VIDEO
| JANUS_RECORDER_DATA.

(** Modelled from the spec: record.h, which declares
    [struct janus_recorder], is not among the sources.  The fields are
    those that [record.c] reads or writes, with the meaning that section 3
    of the specification gives them.  [rc->buf] is scratch space, filled
    anew before each use, and [rc->ref] belongs to the reference
    counter. *)
Record janus_recorder := mkRecorder {
  dir : option string;
  filename : string;
  file : bool;                    (* [rc->file != NULL] *)
  codec : string;
  created : Z;
  type : janus_recorder_medium;
  hostname : string;
  port : Z;
  tcpsock : Z;
  writable : Z;                   (* atomic gint *)
  header : Z;                     (* atomic gint: info header written *)
  mutex : bool;                   (* the mutex is held *)
  destroyed : Z
}.

Definition set_mutex (rc : janus_recorder) (held : bool) : janus_recorder :=
  mkRecorder (dir rc) (filename rc) (file rc) (codec rc) (created rc)
             (type rc) (hostname rc) (port rc) (tcpsock rc) (writable rc)
             (header rc) held (destroyed rc).

Definition set_header (rc : janus_recorder) (v : Z) : janus_recorder :=
  mkRecorder (dir rc) (filename rc) (file rc) (codec rc) (created rc)
             (type rc) (hostname rc) (port rc) (tcpsock rc) (writable rc)
             v (mutex rc) (destroyed rc).

Definition set_writable (rc : janus_recorder) (v : Z) : janus_recorder :=
  mkRecorder (dir rc) (filename rc) (file rc) (codec rc) (created rc)
             (type rc) (hostname rc) (port rc) (tcpsock rc) v
             (header rc) (mutex rc) (destroyed rc).

Definition set_filename (rc : janus_recorder) (name : string)
  : janus_recorder :=
  mkRecorder (dir rc) name (file rc) (codec rc) (created rc)
             (type rc) (hostname rc) (port rc) (tcpsock rc) (writable rc)
             (header rc) (mutex rc) (destroyed rc).

(** How a call ends. *)
Inductive outcome (A : Type) :=
| Returns (a : A)
| Blocked     (* waits on a mutex that is held and that nobody releases *)
| Fault.      (* undefined behaviour: an access outside an object or
                 through a NULL string *)
Arguments Returns {A} a.
Arguments Blocked {A}.
Arguments Fault {A}.

(** The file-scope variables of record.c. *)
Definition header_tag : string := "MJR00001".
Definition frame_header : string := "MEETECHO".
Definition HN : string := "10.215.212.109".
Definition P : Z := 50625.

(** What a [char *] variable holds: NULL, the address of a string, or an
    address that [g_free] has released. *)
Inductive string_pointer :=
| null_string
| string_at (s : string)
| freed_string.

Record globals := mkGlobals {
  rec_tempname : bool;
  rec_tempext : string_pointer
}.

Definition globals_at_start : globals := mkGlobals false null_string.

(** [janus_recorder_init]  (lines 50-62). *)
Definition janus_recorder_init (g : globals) (tempnames : bool)
                               (extension : option string) : globals :=
  if tempnames then
    match extension with
    | None => mkGlobals true (string_at "tmp"%string)
    | Some e => mkGlobals true (string_at e)
    end
  else g.

(** [janus_recorder_deinit]  (lines 64-67): [g_free(rec_tempext)] does
    nothing on NULL, releases a string and leaves its address in the
    variable, and is a double free on an address released before. *)
Definition janus_recorder_deinit (g : globals) : outcome globals :=
  match rec_tempext g with
  | null_string => Returns (mkGlobals false null_string)
  | string_at _ => Returns (mkGlobals false freed_string)
  | freed_string => Fault
  end.

(** ** String helpers of libc and GLib *)

Definition tolower (c : ascii) : ascii :=
  let n := nat_of_ascii c in
  if (Nat.leb 65 n && Nat.leb n 90)%bool then ascii_of_nat (n + 32) else c.

Definition uchar (c : ascii) : Z := Z.of_nat (nat_of_ascii c).

Fixpoint strcasecmp (a b : string) : Z :=
  match a, b with
  | EmptyString, EmptyString => 0
  | EmptyString, String d _ => - uchar (tolower d)
  | String c _, EmptyString => uchar (tolower c)
  | String c a', String d b' =>
      if uchar (tolower c) =? uchar (tolower d) then strcasecmp a' b'
      else uchar (tolower c) - uchar (tolower d)
  end.

(** ["%"SCNu32]: a 32-bit unsigned value in decimal. *)
Definition decimal_u32 (x : Z) : string :=
  DecimalString.NilZero.string_of_uint (N.to_uint (Z.to_N (to_uint32 x))).

(** [memset(rc->buf, 0, cap)] followed by [memcpy] of [pieces] to the front:
    the buffer afterwards, or [None] when a copy would run past its end. *)
Definition staged (cap : Z) (pieces : list byte) : option (list byte) :=
  let n := Z.of_nat (List.length pieces) in
  if cap <? n then None
  else Some (pieces ++ repeat x00 (Z.to_nat (cap - n))).


Section Recorder.
Context `{Host}.

(** ** [janus_recorder_create]  (lines 86-266) *)

(** Lines 92-105: the medium of a codec name, [None] when it is not
    recognised. *)
Definition codec_medium (codec : string) : option janus_recorder_medium :=
  if (strcasecmp codec "vp8" =? 0) || (strcasecmp codec "vp9" =? 0)
     || (strcasecmp codec "h264" =? 0)
  then Some JANUS_RECORDER_VIDEO
  else if (strcasecmp codec "opus" =? 0)
          || (strcasecmp codec "g711" =? 0) || (strcasecmp codec "pcmu" =? 0)
          || (strcasecmp codec "pcma" =? 0)
          || (strcasecmp codec "g722" =? 0)
  then Some JANUS_RECORDER_AUDIO
  else if strcasecmp codec "text" =? 0
  then Some JANUS_RECORDER_DATA
  else None.

(** Lines 118-138: the directory and the file name to record under.  With
    no [filename] both stay NULL, whatever [dir] is. *)
Definition resolve_names (dir filename : option string)
  : option string * option string :=
  match filename with
  | Some name =>
      match dir with
      | None => (Some (dirname name), Some (basename name))
      | Some d => (Some d, Some name)
      end
  | None => (None, None)
  end.

(** Lines 139-164: the directory exists or can be made. *)
Definition directory_ready (w : world) (rec_dir : option string) : bool :=
  match rec_dir with
  | None => true
  | Some d =>
      match stat_of (fs w) d with
      | stat_enoent => mkdir_ok (fs w) d
      | stat_failure => false
      | stat_directory => true
      | stat_other => false
      end
  end.

(** Lines 165-185: the name of the recording, [None] when the temporary
    extension is wanted and is NULL or released. *)
Definition recording_name (g : globals) (rec_file : option string)
                          (w : world) : option string :=
  let stem :=
    match rec_file with
    | None => ("janus-recording-" ++ decimal_u32 (random_uint32 w))%string
    | Some f => f
    end in
  if negb (rec_tempname g) then Some (g_snprintf 1024 (stem ++ ".mjr"))
  else match rec_tempext g with
       | string_at ext => Some (g_snprintf 1024 (stem ++ ".mjr." ++ ext))
       | null_string | freed_string => None
       end.

(** Lines 232-240 and 243-251: a message of the handshake, its length as a
    native [int] and then its text, staged in [rc->buf] and sent; [None]
    when it does not fit the buffer. *)
Definition send_message (w : world) (text : string)
  : option (Z * world) :=
  let len := strlen text in
  match staged RCBUFSIZ (stored 4 len ++ bytes_of text) with
  | None => None
  | Some buf => Some (send_tcp_content w buf (len + 4))
  end.

Definition janus_recorder_create (g : globals)
    (dir codec filename : option string) (w : world)
  : outcome (option janus_recorder) * world :=
  match codec with
  | None => (Returns None, w)
  | Some codec =>
  match codec_medium codec with
  | None => (Returns None, w)
  | Some type =>
  let '(created, w) := janus_get_real_time w in
  let '(rec_dir, rec_file) := resolve_names dir filename in
  if negb (directory_ready w rec_dir) then (Returns None, w) else
  match recording_name g rec_file w with
  | None => (Fault, w)
  | Some newname =>
  (* Try connect to host *)
  if negb (host_found w) then (Returns None, w) else
  let fd := socket_fd w in
  if fd <? 0 then (Returns None, w) else
  let '(c, w) := sys_connect w in
  if c <? 0 then (Returns None, sys_close w) else
  (* Send filename *)
  match send_message w newname with
  | None => (Fault, w)
  | Some (r, w) =>
  if r <? 0 then (Returns None, sys_close w) else
  (* Send first part of the header *)
  match send_message w header_tag with
  | None => (Fault, w)
  | Some (r, w) =>
  if r <? 0 then (Returns None, sys_close w) else
  (Returns (Some (mkRecorder rec_dir newname false codec created type
                             HN P fd 1 0 false 0)), w)
  end end end end end.


(** ** [janus_recorder_save_frame]  (lines 268-366) *)

Definition type_tag (t : janus_recorder_medium) : string :=
  match t with
  | JANUS_RECORDER_AUDIO => "a"
  | JANUS_RECORDER_VIDEO => "v"
  | JANUS_RECORDER_DATA => "d"
  end.

(** Lines 289-302: the info header as JSON text, [now] being the time of
    the first frame. *)
Definition info_text (rc : janus_recorder) (now : Z) : string :=
  json_dumps [ ("t"%string, json_string (type_tag (type rc)));
               ("c"%string, json_string (codec rc));
               ("s"%string, json_integer (created rc));
               ("u"%string, json_integer now) ].

(** Lines 306-308: the info header staged in [recorder->buf], after the
    [memset] of [BUFSIZ] bytes. *)
Definition info_block (text : string) : option (list byte) :=
  if RCBUFSIZ <? BUFSIZ then None
  else staged RCBUFSIZ (stored 2 (htons (strlen text)) ++ bytes_of text).

(** Line 338: [htonll(janus_get_real_time())].  The macro of line 33
    names its argument three times, so that the clock is read once on a
    big-endian host, where the value is [(x)], and twice on a little-endian
    host, once in each operand of [|]; which of the two operands is
    evaluated first is left to the compiler. *)
Definition htonll_real_time (w : world) : Z * world :=
  if htonl 1 =? 1 then janus_get_real_time w
  else
    let '(first, w) := janus_get_real_time w in
    let '(second, w) := janus_get_real_time w in
    let lhs := if left_operand_first then first else second in
    let rhs := if left_operand_first then second else first in
    (Z.lor (to_gint64 (Z.shiftl (htonl (Z.land lhs 4294967295)) 32))
           (htonl (Z.shiftr rhs 32)), w).

(** Lines 322-365: the frame record.  The mutex is held on entry. *)
Definition save_frame_record (rc : janus_recorder) (buffer : list byte)
                             (length : Z) (w : world)
  : outcome Z * janus_recorder * world :=
  let '(r, w) := send_tcp_content w (bytes_of frame_header)
                                  (strlen frame_header) in
  if r <? 0 then (Returns (-5), rc, sys_close w) else
  let header_bytes :=
    htons (match type rc with
           | JANUS_RECORDER_DATA => to_size_t (length + 8)
           | _ => length
           end) in
  let '(r, w) := send_tcp_content w (stored 2 header_bytes) 2 in
  if r <? 0 then (Returns (-5), rc, sys_close w) else
  let '(stamp, w) :=
    match type rc with
    | JANUS_RECORDER_DATA =>
        (* If it's data, prepend timing related info *)
        let '(now, w) := htonll_real_time w in
        let '(r, w) := send_tcp_content w (stored 8 now) 8 in
        (r, w)
    | _ => (0, w)
    end in
  if stamp <? 0 then (Returns (-5), rc, sys_close w) else
  (* Save packet to TCP socket *)
  let len := to_size_t (to_int length) in
  if Z.of_nat (List.length buffer) <? len then (Fault, rc, w) else
  let '(r, w) := send_tcp_content w buffer len in
  if r <? 0 then (Returns (-5), set_mutex rc false, sys_close w) else
  (Returns 0, set_mutex rc false, w).

Definition janus_recorder_save_frame (recorder : option janus_recorder)
    (buffer : option (list byte)) (length : Z) (w : world)
  : outcome Z * option janus_recorder * world :=
  match recorder with
  | None => (Returns (-1), None, w)
  | Some rc =>
  if mutex rc then (Blocked, Some rc, w) else
  let rc := set_mutex rc true in
  let invalid := match buffer with None => true | Some _ => length <? 1 end in
  if invalid then (Returns (-2), Some (set_mutex rc false), w) else
  if tcpsock rc <? 2 then (Returns (-3), Some (set_mutex rc false), w) else
  if writable rc =? 0
  then (Returns (-4), Some (set_mutex rc false), sys_close w) else
  let memory := match buffer with Some b => b | None => [] end in
  if header rc =? 0 then
    (* Write info header as a JSON formatted info *)
    let '(now, w) := janus_get_real_time w in
    let text := info_text rc now in
    match info_block text with
    | None => (Fault, Some rc, w)
    | Some buf =>
        let '(r, w) := send_tcp_content w buf (2 + strlen text) in
        if r <? 0 then (Returns (-5), Some rc, sys_close w) else
        let '(o, rc, w) :=
          save_frame_record (set_header rc 1) memory length w in
        (o, Some rc, w)
    end
  else
    let '(o, rc, w) := save_frame_record rc memory length w in
    (o, Some rc, w)
  end.

(** ** [janus_recorder_close]  (lines 368-406) *)

(** Lines 389-395: a path under the recorder's directory. *)
Definition path_in (d : option string) (name : string) : string :=
  match d with
  | Some d => g_snprintf 1024 (d ++ "/" ++ name)
  | None => g_snprintf 1024 name
  end.

(** Line 384: the name without the temporary extension.  The size handed
    to [g_snprintf] is the [size_t] difference of the two lengths. *)
Definition untagged_name (name ext : string) : string :=
  g_snprintf (to_size_t (strlen name - strlen ext)) name.

Definition janus_recorder_close (g : globals)
    (recorder : option janus_recorder) (w : world)
  : outcome Z * option janus_recorder * world :=
  match recorder with
  | None => (Returns (-1), None, w)
  | Some rc =>
  (* g_atomic_int_compare_and_exchange(&recorder->writable, 1, 0) *)
  if negb (writable rc =? 1) then (Returns (-1), Some rc, w) else
  let rc := set_writable rc 0 in
  if mutex rc then (Blocked, Some rc, w) else
  let rc := set_mutex rc true in
  let w := if 0 <? tcpsock rc then sys_close w else w in
  (* lines 374-379 only log the size of [recorder->file], which is never
     opened *)
  if rec_tempname g then
    (* We need to rename the file, to remove the temporary extension *)
    match rec_tempext g with
    | null_string | freed_string => (Fault, Some rc, w)
    | string_at ext =>
        let newname := untagged_name (filename rc) ext in
        if 1024 <=? strlen newname then (Fault, Some rc, w) else
        let newpath := path_in (dir rc) newname in
        let oldpath := path_in (dir rc) (filename rc) in
        let '(r, w) := sys_rename w oldpath newpath in
        if negb (r =? 0) then (Returns 0, Some (set_mutex rc false), w)
        else (Returns 0, Some (set_mutex (set_filename rc newname) false), w)
    end
  else (Returns 0, Some (set_mutex rc false), w)
  end.

End Recorder.

(** ** [janus_recorder_free] and [janus_recorder_destroy]
       (lines 69-84 and 408-412) *)

Definition set_destroyed (rc : janus_recorder) (v : Z) : janus_recorder :=
  mkRecorder (dir rc) (filename rc) (file rc) (codec rc) (created rc)
             (type rc) (hostname rc) (port rc) (tcpsock rc) (writable rc)
             (header rc) (mutex rc) v.

(** Modelled from the spec: refcount.h is not among the sources.  A
    recorder carries a reference count, [rc->ref], set to 1 when the
    recorder is created; releasing a reference takes one off the count and
    runs the free routine when the count reaches zero (section 4.3,
    destroy). *)
Record counted := mkCounted {
  object : janus_recorder;
  references : Z
}.

(** What a pointer to a recorder points to: the recorder, or memory that
    [g_free] has released. *)
Inductive cell :=
| Live (c : counted)
| Freed.

(** The recorder that lines 256-262 of [janus_recorder_create] leave:
    [janus_refcount_init] sets the count to 1. *)
Definition counted_new (rc : janus_recorder) : counted := mkCounted rc 1.

(** [janus_recorder_free]: the recorder is closed, whatever
    [janus_recorder_close] returns, and then released with its strings.
    [recorder->file] is never opened, so that line 78 is never reached. *)
Definition janus_recorder_free (g : globals) (c : counted) (w : world)
  : outcome unit * cell * world :=
  match janus_recorder_close g (Some (object c)) w with
  | (Returns _, _, w') => (Returns tt, Freed, w')
  | (Blocked, Some rc, w') => (Blocked, Live (mkCounted rc (references c)), w')
  | (Fault, Some rc, w') => (Fault, Live (mkCounted rc (references c)), w')
  | (_, None, w') => (Fault, Live c, w')
  end.

(** [janus_recorder_destroy]: [None] is the NULL pointer; a pointer to
    released memory makes the test of [destroyed] a use after free. *)
Definition janus_recorder_destroy (g : globals) (recorder : option cell)
                                  (w : world)
  : outcome unit * option cell * world :=
  match recorder with
  | None => (Returns tt, None, w)
  | Some Freed => (Fault, Some Freed, w)
  | Some (Live c) =>
  (* g_atomic_int_compare_and_exchange(&recorder->destroyed, 0, 1) *)
  if negb (destroyed (object c) =? 0) then (Returns tt, Some (Live c), w) else
  let rc := set_destroyed (object c) 1 in
  (* janus_refcount_decrease(&recorder->ref) *)
  let left := references c - 1 in
  if left =? 0 then
    let '(o, after, w) := janus_recorder_free g (mkCounted rc left) w in
    (o, Some after, w)
  else (Returns tt, Some (Live (mkCounted rc left)), w)
  end.


(** * Notions used to state the properties *)

(** ** The connection *)

Definition accepting (r : send_result) : bool :=
  match r with
  | send_error => false
  | send_accepts _ => true
  end.

(** The descriptor is open and no [sendto] to come fails; short writes
    may still happen. *)
Definition healthy (w : world) : bool :=
  sock_open (conn w) && forallb accepting (pending (conn w)).

(** The world after [bytes] reached the peer, [rest] being the answers the
    connection still holds. *)
Definition delivered (w : world) (bytes : list byte)
                     (rest : list send_result) : world :=
  set_conn w (mkConnection true (wire (conn w) ++ bytes) rest
                           (closes (conn w))).

(** ** The container format, as the specification words it *)

(** A frame record: the tag, a 2-byte big-endian length field holding the
    low 16 bits of the body length, and the body; the body of a data frame
    starts with the 8-byte big-endian timestamp. *)
Definition frame_body (t : janus_recorder_medium) (stamp : Z)
                      (payload : list byte) : list byte :=
  match t with
  | JANUS_RECORDER_DATA => be_bytes 8 stamp ++ payload
  | _ => payload
  end.

Definition frame_record (t : janus_recorder_medium) (stamp : Z)
                        (payload : list byte) : list byte :=
  bytes_of "MEETECHO"
  ++ be_bytes 2 (Z.of_nat (List.length (frame_body t stamp payload)))
  ++ frame_body t stamp payload.

(** A metadata block: a 2-byte big-endian length and the JSON text. *)
Definition metadata_block (text : string) : list byte :=
  be_bytes 2 (strlen text) ++ bytes_of text.

(** ** The timestamp of a data frame *)

(** The 64-bit value whose low half is that of one reading of the clock
    and whose high half is that of another. *)
Definition spliced (low_of high_of : Z) : Z :=
  2 ^ 32 * (high_of / 2 ^ 32) + low_of mod 2 ^ 32.

(** How often the clock is read for the timestamp of a data frame. *)
Definition stamp_readings `{Host} : nat :=
  if little_endian then 2%nat else 1%nat.

(** The timestamp of a data frame when the clock was read [n] times
    before: on a big-endian host the next reading; on a little-endian host
    the low half of one of the next two readings and the high half of the
    other, the low half being that of the reading made first when the
    compiler evaluates the left operand first. *)
Definition data_stamp `{Host} (w : world) (n : nat) : Z :=
  if little_endian then
    if left_operand_first
    then spliced (real_time w n) (real_time w (S n))
    else spliced (real_time w (S n)) (real_time w n)
  else real_time w n.

(** The world after [n] more readings of the clock. *)
Definition ticked (w : world) (n : nat) : world :=
  mkWorld (conn w) (fs w) (host_found w) (socket_fd w) (connect_ok w)
          (real_time w) (n + clock_reads w) (random_uint32 w).

(** The world once the clock has been read for a data frame. *)
Definition stamped `{Host} (t : janus_recorder_medium) (w : world) : world :=
  match t with
  | JANUS_RECORDER_DATA => ticked w stamp_readings
  | _ => w
  end.

(** What precedes the payload of a frame record. *)
Definition frame_prefix (t : janus_recorder_medium) (length stamp : Z)
  : list byte :=
  bytes_of "MEETECHO"
  ++ be_bytes 2 (match t with
                 | JANUS_RECORDER_DATA => length + 8
                 | _ => length
                 end)
  ++ match t with
     | JANUS_RECORDER_DATA => be_bytes 8 stamp
     | _ => []
     end.

(** The medium, codec and creation time of a recorder, and its [writable]
    flag: what [janus_recorder_save_frame] never changes. *)
Definition same_stream (rc rc' : janus_recorder) : Prop :=
  type rc' = type rc /\ codec rc' = codec rc /\ created rc' = created rc
  /\ writable rc' = writable rc.

(** ** Codec names, as the specification words them *)





(** ** A host and a world to run the recorder in *)

Module Sample.

Definition quote : string := String (ascii_of_nat 34) EmptyString.

Definition json_text (v : json_value) : string :=
  match v with
  | json_string s => (quote ++ s ++ quote)%string
  | json_integer z => DecimalString.NilZero.string_of_int (Z.to_int z)
  end.

(** The layout Jansson gives an object of strings and integers that need
    no escaping. *)
Definition dumps (obj : json_t) : string :=
  ("{" ++ String.concat ", "
            (map (fun kv => quote ++ fst kv ++ quote ++ ": "
                            ++ json_text (snd kv)) obj)
       ++ "}")%string.

(** A path cut at its last slash. *)
Fixpoint cut_at_last_slash (s : string) : option (string * string) :=
  match s with
  | EmptyString => None
  | String c rest =>
      match cut_at_last_slash rest with
      | Some (d, b) => Some (String c d, b)
      | None => if Ascii.eqb c "/" then Some (EmptyString, rest) else None
      end
  end.

Definition parent_of (s : string) : string :=
  match cut_at_last_slash s with
  | None => "."%string
  | Some (EmptyString, _) => "/"%string
  | Some (d, _) => d
  end.

Definition leaf_of (s : string) : string :=
  match cut_at_last_slash s with
  | None => s
  | Some (_, b) => b
  end.

(** A little-endian host with 8 KiB buffers, whose compiler evaluates
    the left operand of a binary operator first. *)
Definition host : Host :=
  {| little_endian := true;
     left_operand_first := true;
     RCBUFSIZ := 8192;
     BUFSIZ := 8192;
     dirname := parent_of;
     basename := leaf_of;
     json_dumps := dumps |}.

(** A world in which the archive server is reachable, every directory
    exists, [rename] finds no file, and the clock starts at 1000. *)
Definition world0 (answers : list send_result) : world :=
  mkWorld (mkConnection false [] answers 0)
          (mkFilesystem (fun _ => stat_directory) (fun _ => true)
                        (fun _ _ => false) [])
          true 5 true (fun n => 1000 + Z.of_nat n) 0 42.

(** The same world once the connection is made. *)
Definition connected (answers : list send_result) : world :=
  set_conn (world0 answers) (mkConnection true [] answers 0).

(** An audio recorder as [janus_recorder_create] leaves it. *)
Definition audio : janus_recorder :=
  mkRecorder (Some "/tmp"%string) "test1.mjr" false "opus" 1000
             JANUS_RECORDER_AUDIO HN P 5 1 0 false 0.

(** The same recorder once its info header is written. *)
Definition audio_started : janus_recorder := set_header audio 1.

(** The same recorder while another caller holds its mutex. *)
Definition audio_busy : janus_recorder := set_mutex audio true.

Definition data : janus_recorder :=
  mkRecorder (Some "/tmp"%string) "chat.mjr" false "text" 1000
             JANUS_RECORDER_DATA HN P 5 1 0 false 0.

(** A recorder made under the temporary-name policy. *)
Definition tagged : janus_recorder :=
  mkRecorder (Some "/tmp"%string) "test1.mjr.tmp" false "opus" 1000
             JANUS_RECORDER_AUDIO HN P 5 1 1 false 0.

Definition temp_policy : globals :=
  janus_recorder_init globals_at_start true None.

(** A world in which [rename] succeeds. *)
Definition renaming (w : world) : world :=
  set_fs w (mkFilesystem (stat_of (fs w)) (mkdir_ok (fs w))
                         (fun _ _ => true) (renames (fs w))).

End Sample.


(** ** Further notions *)

(** [w'] is [w] after some bytes more reached the peer and some pending
    answers were used up; nothing else differs. *)
Definition only_sent (w w' : world) : Prop :=
  exists extra rest,
    w' = set_conn w (mkConnection (sock_open (conn w))
                                  (wire (conn w) ++ extra) rest
                                  (closes (conn w))).

(** The calls that set the naming policy of the process. *)
Inductive policy_call :=
| call_init (tempnames : bool) (extension : option string)
| call_deinit.

Definition policy_step (g : outcome globals) (c : policy_call)
  : outcome globals :=
  match g with
  | Returns g =>
      match c with
      | call_init tempnames extension =>
          Returns (janus_recorder_init g tempnames extension)
      | call_deinit => janus_recorder_deinit g
      end
  | Blocked => Blocked
  | Fault => Fault
  end.

(** The naming policy after a sequence of calls made since the process
    started; [Fault] when one of the calls releases the extension a second
    time. *)
Definition policy_after (calls : list policy_call) : outcome globals :=
  fold_left policy_step calls (Returns globals_at_start).

(** [w'] is [w] after some bytes more reached the peer, the clock was
    read [ticks] times and, when [closed] holds, the descriptor was closed
    once; nothing else differs. *)
Definition advanced (w w' : world) (ticks : nat) (closed : bool) : Prop :=
  exists extra rest,
    w' = mkWorld (mkConnection (sock_open (conn w) && negb closed)
                               (wire (conn w) ++ extra) rest
                               (closes (conn w) + (if closed then 1 else 0)))
                 (fs w) (host_found w) (socket_fd w) (connect_ok w)
                 (real_time w) (clock_reads w + ticks) (random_uint32 w).

(** The fields of a recorder that a frame call leaves alone. *)
Definition same_recording (rc rc' : janus_recorder) : Prop :=
  dir rc' = dir rc /\ filename rc' = filename rc /\ file rc' = file rc
  /\ codec rc' = codec rc /\ created rc' = created rc /\ type rc' = type rc
  /\ hostname rc' = hostname rc /\ port rc' = port rc
  /\ tcpsock rc' = tcpsock rc /\ writable rc' = writable rc
  /\ destroyed rc' = destroyed rc.

(** ** More worlds and recorders to run the code in *)

Module Scenario.

(** The world of [Sample.world0] when [socket] returns [fd]. *)
Definition on_descriptor (fd : Z) (answers : list send_result) : world :=
  mkWorld (mkConnection false [] answers 0)
          (mkFilesystem (fun _ => stat_directory) (fun _ => true)
                        (fun _ _ => false) [])
          true fd true (fun n => 1000 + Z.of_nat n) 0 42.

(** An audio recorder that was closed. *)
Definition audio_closed : janus_recorder := set_writable Sample.audio 0.

(** A recorder whose name is shorter than the temporary extension. *)
Definition short_named : janus_recorder :=
  mkRecorder None "ab" false "opus" 1000 JANUS_RECORDER_AUDIO HN P 5 1 1
             false 0.

(** A file name of 1100 characters. *)
Definition long_name : string :=
  string_of_list_ascii (repeat "n"%char 1100).

End Scenario.

(** * Properties *)

(** ** Bytes and byte order *)

Lemma Z_of_byte_range (b : byte) : 0 <= Z_of_byte b < 256.
Proof.
  unfold Z_of_byte. pose proof (Byte.to_N_bounded b) as Hb.
  split; [apply N2Z.is_nonneg | lia].
Qed.

Lemma Z_of_byte_of_Z (z : Z) : Z_of_byte (byte_of_Z z) = z mod 256.
Proof.
  unfold Z_of_byte, byte_of_Z.
  assert (Hr : 0 <= z mod 256 < 256) by (apply Z.mod_pos_bound; lia).
  destruct (Byte.of_N (Z.to_N (z mod 256))) as [b|] eqn:E.
  - apply Byte.to_of_N in E. rewrite E. apply Z2N.id. lia.
  - apply Byte.of_N_None_iff in E. lia.
Qed.

Lemma byte_of_Z_of_byte (b : byte) : byte_of_Z (Z_of_byte b) = b.
Proof.
  pose proof (Z_of_byte_range b) as Hr.
  unfold byte_of_Z. rewrite Z.mod_small by exact Hr.
  unfold Z_of_byte. rewrite N2Z.id, Byte.of_to_N. reflexivity.
Qed.

Lemma byte_of_Z_mod (z : Z) : byte_of_Z (z mod 256) = byte_of_Z z.
Proof.
  unfold byte_of_Z. rewrite Z.mod_mod by lia. reflexivity.
Qed.

Lemma length_le_bytes (n : nat) (x : Z) : List.length (le_bytes n x) = n.
Proof.
  revert x. induction n as [|n IH]; intro x; simpl; [reflexivity|].
  now rewrite IH.
Qed.

Lemma length_be_bytes (n : nat) (x : Z) : List.length (be_bytes n x) = n.
Proof.
  unfold be_bytes. rewrite length_rev. apply length_le_bytes.
Qed.

Lemma pow256_succ (n : nat) : 256 ^ Z.of_nat (S n) = 256 * 256 ^ Z.of_nat n.
Proof.
  rewrite Nat2Z.inj_succ, Z.pow_succ_r by lia. reflexivity.
Qed.

Lemma pow256_pos (n : nat) : 0 < 256 ^ Z.of_nat n.
Proof. apply Z.pow_pos_nonneg; lia. Qed.

Lemma low_byte_split (a q : Z) :
  0 <= a < 256 -> (a + 256 * q) mod 256 = a /\ (a + 256 * q) / 256 = q.
Proof.
  intro Ha. split; symmetry.
  - apply (Z.mod_unique_pos _ 256 q); [exact Ha | lia].
  - apply (Z.div_unique_pos _ 256 q a); [exact Ha | lia].
Qed.

(** Only the [n] low-order bytes of a value matter to its encoding. *)
Lemma le_bytes_mod (n : nat) (x : Z) :
  le_bytes n (x mod 256 ^ Z.of_nat n) = le_bytes n x.
Proof.
  revert x. induction n as [|n IH]; intro x; [reflexivity|].
  pose proof (pow256_pos n) as Hp.
  cbn [le_bytes]. rewrite pow256_succ.
  rewrite Z.rem_mul_r by lia.
  destruct (low_byte_split (x mod 256) ((x / 256) mod 256 ^ Z.of_nat n))
    as [Hm Hd]; [apply Z.mod_pos_bound; lia|].
  rewrite Hm, Hd, IH. reflexivity.
Qed.

Lemma le_bytes_congr (n : nat) (x y : Z) :
  x mod 256 ^ Z.of_nat n = y mod 256 ^ Z.of_nat n ->
  le_bytes n x = le_bytes n y.
Proof.
  intro E. rewrite <- (le_bytes_mod n x), <- (le_bytes_mod n y), E.
  reflexivity.
Qed.

Lemma le_bytes_app (n m : nat) (x : Z) :
  le_bytes (n + m) x = le_bytes n x ++ le_bytes m (x / 256 ^ Z.of_nat n).
Proof.
  revert x. induction n as [|n IH]; intro x.
  - simpl. now rewrite Z.div_1_r.
  - cbn [Nat.add le_bytes app]. rewrite IH, pow256_succ.
    rewrite Z.div_div by (try lia; apply pow256_pos). reflexivity.
Qed.

Lemma le_value_range (bs : list byte) :
  0 <= le_value bs < 256 ^ Z.of_nat (List.length bs).
Proof.
  induction bs as [|b bs IH]; [simpl; lia|].
  cbn [le_value List.length]. rewrite pow256_succ.
  pose proof (Z_of_byte_range b). lia.
Qed.

Lemma le_bytes_le_value (bs : list byte) :
  le_bytes (List.length bs) (le_value bs) = bs.
Proof.
  induction bs as [|b bs IH]; [reflexivity|].
  pose proof (Z_of_byte_range b) as Hb.
  cbn [le_value List.length le_bytes].
  destruct (low_byte_split (Z_of_byte b) (le_value bs) Hb) as [Hm Hd].
  now rewrite Hm, Hd, byte_of_Z_of_byte, IH.
Qed.

Lemma le_value_le_bytes (n : nat) (x : Z) :
  le_value (le_bytes n x) = x mod 256 ^ Z.of_nat n.
Proof.
  revert x. induction n as [|n IH]; intro x.
  - simpl. now rewrite Z.mod_1_r.
  - pose proof (pow256_pos n) as Hp.
    cbn [le_bytes le_value]. rewrite IH, pow256_succ, Z_of_byte_of_Z.
    rewrite Z.mod_mod by lia. rewrite (Z.rem_mul_r x 256) by lia.
    reflexivity.
Qed.

(** A big-endian field decodes to the value it was made from, reduced to
    the width of the field. *)
Lemma be_value_be_bytes (n : nat) (x : Z) :
  be_value (be_bytes n x) = x mod 256 ^ Z.of_nat n.
Proof.
  unfold be_value, be_bytes. rewrite rev_involutive. apply le_value_le_bytes.
Qed.

Lemma be_bytes_app (n m : nat) (x : Z) :
  be_bytes (n + m) x = be_bytes m (x / 256 ^ Z.of_nat n) ++ be_bytes n x.
Proof.
  unfold be_bytes. rewrite le_bytes_app, rev_app_distr. reflexivity.
Qed.

Lemma length_bytes_of (s : string) :
  List.length (bytes_of s) = String.length s.
Proof.
  unfold bytes_of, list_byte_of_string. rewrite length_map.
  induction s as [|c s IH]; simpl; congruence.
Qed.

Section ByteOrderFacts.
Context `{Host}.

Lemma stored_loaded (bs : list byte) :
  stored (List.length bs) (loaded bs) = bs.
Proof.
  unfold stored, loaded, be_bytes, be_value. destruct little_endian.
  - apply le_bytes_le_value.
  - rewrite <- (length_rev bs), le_bytes_le_value. apply rev_involutive.
Qed.

Lemma length_stored (n : nat) (x : Z) : List.length (stored n x) = n.
Proof.
  unfold stored. destruct little_endian;
    [apply length_le_bytes | apply length_be_bytes].
Qed.

(** What [htons] leaves in memory is the big-endian 16-bit field. *)
Lemma stored_htons (x : Z) : stored 2 (htons x) = be_bytes 2 x.
Proof.
  unfold htons.
  change 2%nat with (List.length (be_bytes 2 (to_uint16 x))) at 1.
  rewrite stored_loaded. unfold be_bytes, to_uint16, wrap_unsigned.
  f_equal. apply (le_bytes_mod 2 x).
Qed.

Lemma loaded_range (bs : list byte) :
  0 <= loaded bs < 256 ^ Z.of_nat (List.length bs).
Proof.
  unfold loaded, be_value. destruct little_endian.
  - apply le_value_range.
  - rewrite <- (length_rev bs). apply le_value_range.
Qed.

Lemma stored_htonl (x : Z) : stored 4 (htonl x) = be_bytes 4 x.
Proof.
  unfold htonl.
  change 4%nat with (List.length (be_bytes 4 (to_uint32 x))) at 1.
  rewrite stored_loaded. unfold be_bytes, to_uint32, wrap_unsigned.
  f_equal. apply (le_bytes_mod 4 x).
Qed.

Lemma htonl_range (x : Z) : 0 <= htonl x < 2 ^ 32.
Proof.
  unfold htonl.
  pose proof (loaded_range (be_bytes 4 (to_uint32 x))) as Hr.
  rewrite length_be_bytes in Hr. exact Hr.
Qed.

End ByteOrderFacts.

Lemma lor_shifted_low (a b : Z) :
  0 <= b < 2 ^ 32 -> Z.lor (Z.shiftl a 32) b = Z.shiftl a 32 + b.
Proof.
  intro Hb.
  assert (Hland : Z.land (Z.shiftl a 32) b = 0).
  { apply Z.bits_inj'. intros n Hn. rewrite Z.land_spec, Z.bits_0.
    destruct (Z.ltb_spec n 32) as [Hlt|Hge].
    - now rewrite Z.shiftl_spec_low.
    - destruct (Z.eq_dec b 0) as [->|Hnz].
      + rewrite Z.bits_0. apply andb_false_r.
      + rewrite (Z.bits_above_log2 b n), andb_false_r; [reflexivity|lia|].
        apply Z.lt_le_trans with 32; [|exact Hge].
        apply Z.log2_lt_pow2; lia. }
  rewrite <- Z.lxor_lor, <- Z.add_nocarry_lxor by exact Hland. reflexivity.
Qed.

(** The two halves of the [htonll] macro on a little-endian host: the
    result is [2^32 * a' + b] with [a'] congruent to [htonl] of the low
    word and [b] equal to [htonl] of the high word. *)
Lemma gint64_of_shifted (a : Z) :
  0 <= a < 2 ^ 32 ->
  exists a', to_gint64 (Z.shiftl a 32) = 2 ^ 32 * a'
             /\ a' mod 2 ^ 32 = a mod 2 ^ 32.
Proof.
  intro Ha. unfold to_gint64, wrap_signed.
  rewrite Z.shiftl_mul_pow2 by lia.
  rewrite (Z.mod_small (a * 2 ^ 32)) by lia.
  destruct (a * 2 ^ 32 <? 2 ^ (64 - 1)).
  - exists a. split; [lia | reflexivity].
  - exists (a - 2 ^ 32). split; [lia|].
    replace (a - 2 ^ 32) with (a + (-1) * 2 ^ 32) by lia.
    apply Z_mod_plus_full.
Qed.

Section NetworkOrder.
Context `{Host}.

(** What the [htonll] macro leaves in memory is the big-endian encoding of
    its (two's complement) argument, whatever the byte order of the host. *)
Lemma stored_htonll (x : Z) : stored 8 (htonll x) = be_bytes 8 x.
Proof.
  unfold htonll.
  assert (Hone : (htonl 1 =? 1) = negb little_endian).
  { unfold htonl, loaded. destruct little_endian; reflexivity. }
  rewrite Hone. unfold stored at 1.
  destruct little_endian eqn:Hle; cbn [negb]; [|reflexivity].
  pose proof (htonl_range (Z.land x 4294967295)) as Ha.
  pose proof (htonl_range (Z.shiftr x 32)) as Hb.
  destruct (gint64_of_shifted _ Ha) as (a' & Ea & Hmod).
  assert (El : Z.lor (to_gint64 (Z.shiftl (htonl (Z.land x 4294967295)) 32))
                     (htonl (Z.shiftr x 32))
               = 2 ^ 32 * a' + htonl (Z.shiftr x 32)).
  { rewrite Ea. replace (2 ^ 32 * a') with (Z.shiftl a' 32)
      by (rewrite Z.shiftl_mul_pow2; lia).
    rewrite lor_shifted_low by exact Hb. reflexivity. }
  rewrite El. clear El Ea.
  change 8%nat with (4 + 4)%nat.
  rewrite le_bytes_app, be_bytes_app.
  change (256 ^ Z.of_nat 4) with (2 ^ 32).
  f_equal.
  - (* the low word in memory is the high word of [x], big-endian *)
    rewrite (le_bytes_congr 4 _ (htonl (Z.shiftr x 32))).
    2:{ change (256 ^ Z.of_nat 4) with (2 ^ 32).
        rewrite Z.add_comm, Z.mul_comm, Z_mod_plus_full. reflexivity. }
    pose proof (stored_htonl (Z.shiftr x 32)) as Hs.
    unfold stored in Hs. rewrite Hle in Hs. rewrite Hs.
    rewrite Z.shiftr_div_pow2 by lia. reflexivity.
  - (* the high word in memory is the low word of [x], big-endian *)
    replace ((2 ^ 32 * a' + htonl (Z.shiftr x 32)) / 2 ^ 32) with a'.
    2:{ apply (Z.div_unique_pos _ (2 ^ 32) a' (htonl (Z.shiftr x 32)));
          [exact Hb | reflexivity]. }
    rewrite (le_bytes_congr 4 a' (htonl (Z.land x 4294967295))) by exact Hmod.
    pose proof (stored_htonl (Z.land x 4294967295)) as Hs.
    unfold stored in Hs. rewrite Hle in Hs. rewrite Hs.
    unfold be_bytes. f_equal. apply le_bytes_congr.
    change 4294967295 with (Z.ones 32). rewrite Z.land_ones by lia.
    change (256 ^ Z.of_nat 4) with (2 ^ 32). apply Z.mod_mod. lia.
Qed.

Lemma spliced_same (x : Z) : spliced x x = x.
Proof. unfold spliced. symmetry. apply Z.div_mod. lia. Qed.

Lemma spliced_high (l r : Z) : spliced l r / 2 ^ 32 = r / 2 ^ 32.
Proof.
  unfold spliced. symmetry.
  apply (Z.div_unique_pos _ (2 ^ 32) (r / 2 ^ 32) (l mod 2 ^ 32));
    [apply Z.mod_pos_bound; lia | reflexivity].
Qed.

Lemma spliced_low (l r : Z) : spliced l r mod 2 ^ 32 = l mod 2 ^ 32.
Proof.
  unfold spliced. symmetry.
  apply (Z.mod_unique_pos _ (2 ^ 32) (r / 2 ^ 32) (l mod 2 ^ 32));
    [apply Z.mod_pos_bound; lia | reflexivity].
Qed.

(** The two operands of the macro at two values, on a little-endian host:
    what is left in memory is, big-endian, the high half of the value of
    the right operand and then the low half of the value of the left
    one. *)
Lemma stored_halves (l r : Z) :
  little_endian = true ->
  stored 8 (Z.lor (to_gint64 (Z.shiftl (htonl (Z.land l 4294967295)) 32))
                  (htonl (Z.shiftr r 32)))
  = be_bytes 8 (spliced l r).
Proof.
  intro Hle. unfold stored at 1. rewrite Hle.
  pose proof (htonl_range (Z.land l 4294967295)) as Ha.
  pose proof (htonl_range (Z.shiftr r 32)) as Hb.
  destruct (gint64_of_shifted _ Ha) as (a' & Ea & Hmod).
  assert (El : Z.lor (to_gint64 (Z.shiftl (htonl (Z.land l 4294967295)) 32))
                     (htonl (Z.shiftr r 32))
               = 2 ^ 32 * a' + htonl (Z.shiftr r 32)).
  { rewrite Ea. replace (2 ^ 32 * a') with (Z.shiftl a' 32)
      by (rewrite Z.shiftl_mul_pow2; lia).
    rewrite lor_shifted_low by exact Hb. reflexivity. }
  rewrite El. clear El Ea.
  change 8%nat with (4 + 4)%nat.
  rewrite le_bytes_app, be_bytes_app.
  change (256 ^ Z.of_nat 4) with (2 ^ 32).
  f_equal.
  - rewrite (le_bytes_congr 4 _ (htonl (Z.shiftr r 32))).
    2:{ change (256 ^ Z.of_nat 4) with (2 ^ 32).
        rewrite Z.add_comm, Z.mul_comm, Z_mod_plus_full. reflexivity. }
    pose proof (stored_htonl (Z.shiftr r 32)) as Hs.
    unfold stored in Hs. rewrite Hle in Hs. rewrite Hs.
    rewrite Z.shiftr_div_pow2, spliced_high by lia. reflexivity.
  - replace ((2 ^ 32 * a' + htonl (Z.shiftr r 32)) / 2 ^ 32) with a'.
    2:{ apply (Z.div_unique_pos _ (2 ^ 32) a' (htonl (Z.shiftr r 32)));
          [exact Hb | reflexivity]. }
    rewrite (le_bytes_congr 4 a' (htonl (Z.land l 4294967295))) by exact Hmod.
    pose proof (stored_htonl (Z.land l 4294967295)) as Hs.
    unfold stored in Hs. rewrite Hle in Hs. rewrite Hs.
    unfold be_bytes. f_equal. apply le_bytes_congr.
    change 4294967295 with (Z.ones 32). rewrite Z.land_ones by lia.
    change (256 ^ Z.of_nat 4) with (2 ^ 32).
    rewrite spliced_low. apply Z.mod_mod. lia.
Qed.

End NetworkOrder.

Lemma to_size_t_small (x : Z) : 0 <= x < 2 ^ 64 -> to_size_t x = x.
Proof. intro Hx. apply Z.mod_small. exact Hx. Qed.

Lemma to_size_t_range (x : Z) : 0 <= to_size_t x < 2 ^ 64.
Proof. apply Z.mod_pos_bound. lia. Qed.

Lemma to_int_small (x : Z) : 0 <= x < 2 ^ 31 -> to_int x = x.
Proof.
  intro Hx. unfold to_int, wrap_signed.
  rewrite Z.mod_small by lia.
  destruct (Z.ltb_spec x (2 ^ (32 - 1))) as [_|Hge]; [reflexivity|].
  change (2 ^ (32 - 1)) with (2 ^ 31) in Hge. lia.
Qed.

Lemma delivered_nothing (w : world) :
  sock_open (conn w) = true -> delivered w [] (pending (conn w)) = w.
Proof.
  destruct w as [[o wi p c] f hf sf co rt cr ru]. cbn. intros ->.
  unfold delivered, set_conn. cbn. now rewrite app_nil_r.
Qed.

Lemma delivered_delivered (w : world) (a b : list byte)
                          (r1 r2 : list send_result) :
  delivered (delivered w a r1) b r2 = delivered w (a ++ b) r2.
Proof.
  unfold delivered, set_conn. cbn. now rewrite app_assoc.
Qed.

Lemma healthy_delivered (w : world) (bytes : list byte)
                        (rest : list send_result) :
  forallb accepting rest = true -> healthy (delivered w bytes rest) = true.
Proof. intro Hr. unfold healthy. cbn. exact Hr. Qed.

Lemma firstn_then_more {A : Type} (a b : nat) (l : list A) :
  firstn a l ++ firstn b (skipn a l) = firstn (a + b) l.
Proof.
  revert l. induction a as [|a IH]; intro l; [reflexivity|].
  destruct l as [|x l]; cbn [firstn skipn Nat.add app].
  - now rewrite firstn_nil.
  - now rewrite IH.
Qed.

(** On a healthy connection the loop delivers what is left of the buffer,
    through as many short writes as the connection imposes. *)
Lemma send_loop_healthy (fuel : nat) :
  forall (w : world) (buf : list byte) (len off : Z),
    healthy w = true ->
    0 <= off <= len -> len < 2 ^ 64 ->
    (List.length (pending (conn w)) < fuel)%nat ->
    exists rest,
      forallb accepting rest = true /\
      send_loop fuel w buf len off =
        Some (to_int len,
              delivered w (firstn (Z.to_nat (len - off))
                                  (skipn (Z.to_nat off) buf)) rest).
Proof.
  induction fuel as [|fuel IH]; intros w buf len off Hw Hoff Hlen Hfuel;
    [lia|].
  unfold healthy in Hw. apply andb_true_iff in Hw. destruct Hw as [Hopen Hp].
  cbn [send_loop].
  destruct (Z.ltb_spec off len) as [Hlt|Hge].
  - unfold sys_sendto. rewrite Hopen. cbn [negb].
    destruct (pending (conn w)) as [|[|k] rest] eqn:Ep; cbn in Hp;
      [ | discriminate | ].
    + (* nothing pending: the call takes all it is given *)
      rewrite to_size_t_small by lia.
      destruct (Z.ltb_spec (len - off) 0); [lia|].
      replace (off + (len - off)) with len by lia.
      rewrite to_size_t_small by lia.
      fold (delivered w (firstn (Z.to_nat (len - off))
                                (skipn (Z.to_nat off) buf)) []).
      exists []. split; [reflexivity|].
      destruct fuel; cbn [send_loop]; rewrite Z.ltb_irrefl; reflexivity.
    + (* a short write *)
      set (taken := Z.min (Z.of_nat k) (len - off)).
      assert (Ht : 0 <= taken <= len - off) by (unfold taken; lia).
      rewrite to_size_t_small by lia.
      destruct (Z.ltb_spec taken 0); [lia|].
      rewrite to_size_t_small by lia.
      fold (delivered w (firstn (Z.to_nat taken)
                                (skipn (Z.to_nat off) buf)) rest).
      destruct (IH (delivered w (firstn (Z.to_nat taken)
                                        (skipn (Z.to_nat off) buf)) rest)
                   buf len (off + taken)) as (rest' & Hr' & E).
      * now apply healthy_delivered.
      * lia.
      * exact Hlen.
      * cbn in Hfuel |- *. lia.
      * exists rest'. split; [exact Hr'|].
        rewrite E, delivered_delivered. do 3 f_equal.
        replace (Z.to_nat (off + taken))
          with (Z.to_nat taken + Z.to_nat off)%nat by lia.
        rewrite <- skipn_skipn, firstn_then_more. f_equal. lia.
  - assert (off = len) by lia. subst off.
    rewrite Z.sub_diag. cbn [Z.to_nat firstn].
    exists (pending (conn w)). split; [exact Hp|].
    now rewrite delivered_nothing.
Qed.

(** [send_tcp_content] on a healthy connection: the whole buffer reaches
    the peer and the length is returned. *)
Lemma send_tcp_content_healthy (w : world) (buf : list byte) (len : Z) :
  healthy w = true -> 0 <= len < 2 ^ 64 ->
  exists rest,
    forallb accepting rest = true /\
    send_tcp_content w buf len =
      (to_int len, delivered w (firstn (Z.to_nat len) buf) rest).
Proof.
  intros Hw Hlen. unfold send_tcp_content.
  rewrite to_size_t_small by exact Hlen.
  destruct (send_loop_healthy (send_fuel w) w buf len 0 Hw)
    as (rest & Hr & E); [lia | lia | unfold send_fuel; lia |].
  exists rest. split; [exact Hr|].
  rewrite E, Z.sub_0_r. reflexivity.
Qed.

(** The loop always comes to an end within [send_fuel] iterations: on an
    open descriptor each turn uses up one pending answer, and a closed one
    fails the first call, which wraps the offset past [len]. *)
Lemma send_loop_open_total (fuel : nat) :
  forall (w : world) (buf : list byte) (len off : Z),
    sock_open (conn w) = true ->
    0 <= len < 2 ^ 64 -> 0 <= off < 2 ^ 64 ->
    (List.length (pending (conn w)) < fuel)%nat ->
    send_loop fuel w buf len off <> None.
Proof.
  induction fuel as [|fuel IH]; intros w buf len off Hopen Hlen Hoff Hfuel;
    [lia|].
  cbn [send_loop].
  destruct (Z.ltb_spec off len) as [Hlt|Hge]; [|discriminate].
  unfold sys_sendto. rewrite Hopen. cbn [negb].
  destruct (pending (conn w)) as [|[|k] rest] eqn:Ep.
  - rewrite to_size_t_small by lia.
    destruct (Z.ltb_spec (len - off) 0); [lia|].
    replace (off + (len - off)) with len by lia.
    rewrite to_size_t_small by lia.
    destruct fuel; cbn [send_loop]; rewrite Z.ltb_irrefl; discriminate.
  - pose proof (to_size_t_range (-1)).
    destruct (Z.ltb_spec (to_size_t (-1)) 0); [lia|].
    cbn in Hfuel. apply IH; cbn; try assumption; try lia.
    apply to_size_t_range.
  - pose proof (to_size_t_range (Z.min (Z.of_nat k) (len - off))).
    destruct (Z.ltb_spec (to_size_t (Z.min (Z.of_nat k) (len - off))) 0);
      [lia|].
    cbn in Hfuel. apply IH; cbn; try assumption; try lia.
    apply to_size_t_range.
Qed.

Lemma send_tcp_content_terminates (w : world) (buf : list byte) (len : Z) :
  send_loop (send_fuel w) w buf (to_size_t len) 0 <> None.
Proof.
  pose proof (to_size_t_range len) as Hlen.
  destruct (sock_open (conn w)) eqn:Hopen.
  - apply send_loop_open_total; try assumption; [lia | unfold send_fuel; lia].
  - unfold send_fuel. cbn [send_loop].
    destruct (Z.ltb_spec 0 (to_size_t len)) as [Hlt|Hge]; [|discriminate].
    unfold sys_sendto. rewrite Hopen. cbn [negb].
    change (to_size_t (-1)) with (2 ^ 64 - 1).
    change (2 ^ 64 - 1 <? 0) with false. cbv iota.
    change (to_size_t (0 + (2 ^ 64 - 1))) with (2 ^ 64 - 1).
    destruct (List.length (pending (conn w))); cbn [send_loop];
      (destruct (Z.ltb_spec (2 ^ 64 - 1) (to_size_t len)); [lia|discriminate]).
Qed.

Lemma firstn_exact {A : Type} (n : nat) (l : list A) :
  List.length l = n -> firstn n l = l.
Proof. intros <-. apply firstn_all. Qed.

Lemma staged_front (cap : Z) (pieces buf : list byte) :
  staged cap pieces = Some buf ->
  Z.of_nat (List.length pieces) <= cap /\
  firstn (List.length pieces) buf = pieces.
Proof.
  unfold staged.
  destruct (Z.ltb_spec cap (Z.of_nat (List.length pieces))) as [|Hfit];
    [discriminate|].
  intro E. injection E as <-. split; [exact Hfit|].
  rewrite firstn_app, Nat.sub_diag, firstn_all. cbn [firstn].
  apply app_nil_r.
Qed.

Lemma to_int_oversize (length : Z) :
  2 ^ 31 <= length < 2 ^ 32 ->
  to_size_t (to_int length) = 2 ^ 64 - 2 ^ 32 + length /\
  to_int (2 ^ 64 - 2 ^ 32 + length) < 0.
Proof.
  intro Hl. unfold to_int, to_size_t, wrap_signed, wrap_unsigned.
  rewrite (Z.mod_small length) by lia.
  change (2 ^ (32 - 1)) with (2 ^ 31).
  destruct (Z.ltb_spec length (2 ^ 31)) as [|_]; [lia|].
  replace ((length - 2 ^ 32) mod 2 ^ 64) with (2 ^ 64 - 2 ^ 32 + length).
  2:{ apply (Z.mod_unique_pos _ (2 ^ 64) (-1)); lia. }
  split; [reflexivity|].
  replace ((2 ^ 64 - 2 ^ 32 + length) mod 2 ^ 32) with length.
  2:{ apply (Z.mod_unique_pos _ (2 ^ 32) (2 ^ 32 - 1)); lia. }
  destruct (Z.ltb_spec length (2 ^ 31)); lia.
Qed.

Section FrameWriter.
Context `{Host}.

(** Line 338: the clock is read [stamp_readings] times, and the eight
    bytes of [now] are the big-endian encoding of the timestamp. *)
Lemma htonll_real_time_stamp (w : world) :
  exists now,
    htonll_real_time w = (now, ticked w stamp_readings) /\
    stored 8 now = be_bytes 8 (data_stamp w (clock_reads w)).
Proof.
  unfold htonll_real_time, stamp_readings, data_stamp.
  assert (Hone : (htonl 1 =? 1) = negb little_endian).
  { unfold htonl, loaded. destruct little_endian; reflexivity. }
  rewrite Hone.
  destruct little_endian eqn:Hle; cbn [negb].
  - unfold janus_get_real_time. cbn.
    destruct left_operand_first; eexists; (split; [reflexivity|]);
      apply stored_halves; exact Hle.
  - eexists. split; [reflexivity|]. unfold stored. now rewrite Hle.
Qed.

(** On a healthy connection the tag, the length field and the timestamp of
    a data frame reach the peer; what is left of [save_frame_record] is the
    payload. *)
Lemma save_frame_record_prefix (rc : janus_recorder) (buffer : list byte)
                               (length : Z) (w : world) :
  healthy w = true ->
  exists rest,
    forallb accepting rest = true /\
    save_frame_record rc buffer length w =
      let w1 := delivered (stamped (type rc) w)
                  (frame_prefix (type rc) length
                                (data_stamp w (clock_reads w))) rest in
      let len := to_size_t (to_int length) in
      if Z.of_nat (List.length buffer) <? len then (Fault, rc, w1) else
      let '(r, w2) := send_tcp_content w1 buffer len in
      if r <? 0 then (Returns (-5), set_mutex rc false, sys_close w2)
      else (Returns 0, set_mutex rc false, w2).
Proof.
  intros Hw. unfold save_frame_record.
  destruct (send_tcp_content_healthy w (bytes_of frame_header)
              (strlen frame_header) Hw) as (r1 & Hr1 & E1);
    [cbv; split; congruence|].
  rewrite E1. clear E1.
  change (to_int (strlen frame_header) <? 0) with false. cbv iota.
  change (firstn (Z.to_nat (strlen frame_header)) (bytes_of frame_header))
    with (bytes_of "MEETECHO").
  set (w1 := delivered w _ r1).
  assert (Hw1 : healthy w1 = true) by now apply healthy_delivered.
  match goal with
  | |- context [send_tcp_content w1 (stored 2 (htons ?v)) 2] =>
      set (field := v)
  end.
  destruct (send_tcp_content_healthy w1 (stored 2 (htons field)) 2 Hw1)
    as (r2 & Hr2 & E2); [lia|].
  rewrite E2. clear E2.
  change (to_int 2 <? 0) with false. cbv iota.
  rewrite stored_htons.
  rewrite (firstn_exact (Z.to_nat 2) (be_bytes 2 field))
    by apply length_be_bytes.
  set (w2 := delivered w1 _ r2).
  assert (Hw2 : healthy w2 = true) by now apply healthy_delivered.
  destruct (type rc) eqn:Et.
  - (* audio *)
    change (0 <? 0) with false. cbv iota.
    exists r2. split; [exact Hr2|].
    unfold w2, w1, field, frame_prefix, stamped.
    rewrite !delivered_delivered, app_nil_r. reflexivity.
  - (* video *)
    change (0 <? 0) with false. cbv iota.
    exists r2. split; [exact Hr2|].
    unfold w2, w1, field, frame_prefix, stamped.
    rewrite !delivered_delivered, app_nil_r. reflexivity.
  - (* data: the timestamp goes first *)
    destruct (htonll_real_time_stamp w2) as (now & En & Es).
    rewrite En. clear En.
    set (w3 := ticked w2 stamp_readings).
    assert (Hw3 : healthy w3 = true) by exact Hw2.
    destruct (send_tcp_content_healthy w3 (stored 8 now) 8 Hw3)
      as (r3 & Hr3 & E3); [lia|].
    rewrite E3. clear E3.
    change (to_int 8 <? 0) with false. cbv iota.
    rewrite Es.
    rewrite (firstn_exact (Z.to_nat 8) (be_bytes 8 _))
      by apply length_be_bytes.
    exists r3. split; [exact Hr3|].
    assert (Ef : be_bytes 2 field = be_bytes 2 (length + 8)).
    { unfold field, be_bytes. f_equal. apply le_bytes_congr.
      unfold to_size_t, wrap_unsigned.
      apply Z.mod_mod_divide. exists (2 ^ 48). reflexivity. }
    unfold w3, w2, w1, delivered, set_conn, stamped, frame_prefix, ticked,
      data_stamp.
    cbn [conn fs host_found socket_fd connect_ok real_time clock_reads
         random_uint32 wire closes].
    rewrite Ef, <- !app_assoc. reflexivity.
Qed.

(** The frame record on a healthy connection, for a payload below 2 GiB:
    either the caller's buffer is shorter than the length it announces,
    or the record reaches the peer whole and the mutex is released. *)
Lemma save_frame_record_healthy (rc : janus_recorder) (buffer : list byte)
                                (length : Z) (w : world) :
  healthy w = true -> 0 <= length < 2 ^ 31 ->
  (Z.of_nat (List.length buffer) < length /\
   fst (fst (save_frame_record rc buffer length w)) = Fault)
  \/
  (length <= Z.of_nat (List.length buffer) /\
   exists rest,
     forallb accepting rest = true /\
     save_frame_record rc buffer length w =
       (Returns 0, set_mutex rc false,
        delivered (stamped (type rc) w)
                  (frame_record (type rc) (data_stamp w (clock_reads w))
                                (firstn (Z.to_nat length) buffer))
                  rest)).
Proof.
  intros Hw Hlen.
  destruct (save_frame_record_prefix rc buffer length w Hw)
    as (r1 & Hr1 & E).
  rewrite E. clear E. cbv zeta.
  rewrite (to_int_small length) by lia.
  rewrite (to_size_t_small length) by lia.
  destruct (Z.ltb_spec (Z.of_nat (List.length buffer)) length) as [Hs|Hl].
  - left. split; [exact Hs | reflexivity].
  - right. split; [exact Hl|].
    match goal with
    | |- context [send_tcp_content ?w1 buffer length] =>
        destruct (send_tcp_content_healthy w1 buffer length)
          as (r2 & Hr2 & E2);
          [now apply healthy_delivered | lia |]
    end.
    rewrite E2, (to_int_small length) by lia.
    destruct (Z.ltb_spec length 0); [lia|].
    exists r2. split; [exact Hr2|].
    rewrite delivered_delivered. do 2 f_equal.
    unfold frame_record, frame_prefix, frame_body.
    destruct (type rc);
      rewrite ?length_app, ?length_be_bytes, length_firstn, Nat.min_l by lia;
      rewrite <- ?app_assoc, ?app_nil_l;
      repeat f_equal; lia.
Qed.

(** A payload of 2 GiB or more is never reported as saved: its length
    turns negative as an [int]. *)
Lemma save_frame_record_oversize (rc : janus_recorder) (buffer : list byte)
                                 (length : Z) (w : world) :
  healthy w = true -> 2 ^ 31 <= length < 2 ^ 32 ->
  fst (fst (save_frame_record rc buffer length w)) <> Returns 0.
Proof.
  intros Hw Hlen.
  destruct (save_frame_record_prefix rc buffer length w Hw)
    as (r1 & Hr1 & E).
  rewrite E. clear E. cbv zeta.
  destruct (to_int_oversize length Hlen) as [Es Hneg].
  rewrite Es.
  destruct (Z.of_nat (List.length buffer) <? 2 ^ 64 - 2 ^ 32 + length);
    [discriminate|].
  match goal with
  | |- context [send_tcp_content ?w1 buffer ?len] =>
      destruct (send_tcp_content_healthy w1 buffer len)
        as (r2 & Hr2 & E2);
        [now apply healthy_delivered | lia |]
  end.
  rewrite E2.
  destruct (Z.ltb_spec (to_int (2 ^ 64 - 2 ^ 32 + length)) 0); [|lia].
  discriminate.
Qed.

End FrameWriter.

Section FrameCalls.
Context `{Host}.

(** The info header on a healthy connection: the metadata block reaches
    the peer. *)
Lemma info_sent_healthy (text : string) (buf : list byte) (w : world) :
  healthy w = true -> RCBUFSIZ <= SIZE_MAX ->
  info_block text = Some buf ->
  2 + strlen text <= RCBUFSIZ /\
  exists rest,
    forallb accepting rest = true /\
    send_tcp_content w buf (2 + strlen text) =
      (to_int (2 + strlen text), delivered w (metadata_block text) rest).
Proof.
  intros Hw Hcap Hb. unfold info_block in Hb.
  destruct (RCBUFSIZ <? BUFSIZ); [discriminate|].
  apply staged_front in Hb. destruct Hb as [Hfit Hfront].
  rewrite length_app, length_stored, length_bytes_of in Hfit, Hfront.
  unfold strlen. unfold SIZE_MAX in Hcap. split; [lia|].
  destruct (send_tcp_content_healthy w buf
              (2 + Z.of_nat (String.length text)) Hw)
    as (rest & Hr & E); [lia|].
  exists rest. split; [exact Hr|].
  rewrite E. do 2 f_equal.
  replace (Z.to_nat (2 + Z.of_nat (String.length text)))
    with (2 + String.length text)%nat by lia.
  rewrite Hfront, stored_htons. reflexivity.
Qed.

(** A call that reports success on a healthy connection: what it was
    given and what it put on the wire. *)
Lemma save_frame_success (rc : janus_recorder) (buffer : option (list byte))
    (length : Z) (w : world) (r' : option janus_recorder) (w' : world) :
  healthy w = true -> RCBUFSIZ <= SIZE_MAX -> 0 <= length < 2 ^ 32 ->
  janus_recorder_save_frame (Some rc) buffer length w = (Returns 0, r', w') ->
  exists b rc',
    buffer = Some b /\ 1 <= length < 2 ^ 31 /\
    length <= Z.of_nat (List.length b) /\
    mutex rc = false /\
    r' = Some rc' /\ mutex rc' = false /\ header rc' <> 0 /\
    same_stream rc rc' /\
    healthy w' = true /\
    wire (conn w') =
      wire (conn w)
      ++ (if header rc =? 0
          then metadata_block (info_text rc (real_time w (clock_reads w)))
          else [])
      ++ frame_record (type rc)
           (data_stamp w (clock_reads w
                          + (if (header rc =? 0)%Z then 1 else 0))%nat)
           (firstn (Z.to_nat length) b).
Proof.
  intros Hw Hcap Hlen E. unfold janus_recorder_save_frame in E.
  destruct (mutex rc) eqn:Em; [discriminate|].
  destruct buffer as [b|]; [|discriminate].
  destruct (Z.ltb_spec length 1) as [|Hpos]; [discriminate|].
  cbn [tcpsock writable header set_mutex] in E.
  destruct (tcpsock rc <? 2); [discriminate|].
  destruct (writable rc =? 0); [discriminate|].
  assert (Hbig : ~ 2 ^ 31 <= length ->  0 <= length < 2 ^ 31) by lia.
  destruct (Z.eqb_spec (header rc) 0) as [Eh|Eh].
  - (* the info header comes first *)
    unfold janus_get_real_time in E.
    set (wt := mkWorld (conn w) _ _ _ _ _ _ _) in E.
    assert (Hwt : healthy wt = true) by exact Hw.
    set (text := info_text (set_mutex rc true) (real_time w (clock_reads w)))
      in E.
    destruct (info_block text) as [buf|] eqn:Eb; [|discriminate].
    destruct (info_sent_healthy text buf wt Hwt Hcap Eb)
      as (_ & rest & Hrest & Es).
    rewrite Es in E. clear Es.
    destruct (to_int (2 + strlen text) <? 0); [discriminate|].
    set (w1 := delivered wt (metadata_block text) rest) in E.
    assert (Hw1 : healthy w1 = true) by now apply healthy_delivered.
    set (rc1 := set_header (set_mutex rc true) 1) in E.
    destruct (Z_lt_le_dec length (2 ^ 31)) as [Hsmall|Hlarge].
    + destruct (save_frame_record_healthy rc1 b length w1 Hw1)
        as [[_ Hf]|[Hfit (rest' & Hrest' & Er)]]; [lia | |].
      * destruct (save_frame_record rc1 b length w1) as [[o rc2] w2].
        cbn in Hf. subst o. discriminate.
      * rewrite Er in E. injection E as <- <-.
        exists b, (set_mutex rc1 false).
        repeat split; try assumption; try lia; try reflexivity;
          try (now apply healthy_delivered); try (cbn; lia).
        cbn [type rc1 set_header set_mutex].
        unfold delivered, set_conn, stamped, ticked, data_stamp, w1, wt,
          delivered, set_conn.
        destruct (type rc);
          cbn [conn wire real_time clock_reads];
          rewrite Nat.add_1_r, <- app_assoc; reflexivity.
    + pose proof (save_frame_record_oversize rc1 b length w1 Hw1) as Hno.
      destruct (save_frame_record rc1 b length w1) as [[o rc2] w2].
      cbn in Hno. injection E as -> _ _. exfalso. apply Hno; [lia|].
      reflexivity.
  - (* the info header was written by an earlier call *)
    destruct (Z_lt_le_dec length (2 ^ 31)) as [Hsmall|Hlarge].
    + destruct (save_frame_record_healthy (set_mutex rc true) b length w Hw)
        as [[_ Hf]|[Hfit (rest' & Hrest' & Er)]]; [lia | |].
      * destruct (save_frame_record (set_mutex rc true) b length w)
          as [[o rc2] w2].
        cbn in Hf. subst o. discriminate.
      * rewrite Er in E. injection E as <- <-.
        exists b, (set_mutex (set_mutex rc true) false).
        repeat split; try assumption; try lia; try reflexivity;
          try (now apply healthy_delivered); try (cbn; lia).
        cbn [type set_mutex].
        unfold delivered, set_conn, stamped, ticked, data_stamp.
        destruct (type rc);
          cbn [conn wire real_time clock_reads];
          rewrite Nat.add_0_r; reflexivity.
    + pose proof (save_frame_record_oversize (set_mutex rc true) b length w
                    Hw) as Hno.
      destruct (save_frame_record (set_mutex rc true) b length w)
        as [[o rc2] w2].
      cbn in Hno. injection E as -> _ _. exfalso. apply Hno; [lia|].
      reflexivity.
Qed.

End FrameCalls.

(** ** Creation *)

Lemma substring_length_le (n : nat) (s : string) :
  (String.length (String.substring 0 n s) <= n)%nat.
Proof.
  revert s. induction n as [|n IH]; intro s; destruct s as [|c s]; cbn;
    try lia.
  specialize (IH s). lia.
Qed.

Lemma g_snprintf_length (size : Z) (text : string) :
  0 < size -> strlen (g_snprintf size text) < size.
Proof.
  intro Hs. unfold strlen, g_snprintf.
  pose proof (substring_length_le (Z.to_nat (size - 1)) text). lia.
Qed.

Section Creation.
Context `{Host}.

Lemma recording_name_length (g : globals) (rec_file : option string)
                            (w : world) (name : string) :
  recording_name g rec_file w = Some name -> 0 <= strlen name < 1024.
Proof.
  unfold recording_name. intro E.
  assert (Hany : forall t, 0 <= strlen (g_snprintf 1024 t) < 1024).
  { intro t. pose proof (g_snprintf_length 1024 t). unfold strlen in *. lia. }
  destruct (negb (rec_tempname g)); [injection E as <-; apply Hany|].
  destruct (rec_tempext g);
    [discriminate | injection E as <-; apply Hany | discriminate].
Qed.

(** A message of the handshake on a healthy connection: the native length
    and the text reach the peer. *)
Lemma send_message_healthy (w : world) (text : string) (r : Z) (w' : world) :
  healthy w = true -> 0 <= strlen text < 1024 ->
  send_message w text = Some (r, w') ->
  r = strlen text + 4 /\
  exists rest,
    forallb accepting rest = true /\
    w' = delivered w (stored 4 (strlen text) ++ bytes_of text) rest.
Proof.
  intros Hw Hlen E. unfold send_message in E.
  destruct (staged RCBUFSIZ _) as [buf|] eqn:Eb; [|discriminate].
  apply staged_front in Eb. destruct Eb as [_ Hfront].
  rewrite length_app, length_stored, length_bytes_of in Hfront.
  destruct (send_tcp_content_healthy w buf (strlen text + 4) Hw)
    as (rest & Hr & Es); [lia|].
  rewrite Es in E. injection E as <- <-.
  split; [apply to_int_small; lia|].
  exists rest. split; [exact Hr|].
  f_equal. rewrite <- Hfront. f_equal. unfold strlen. lia.
Qed.

(** A creation that succeeds while no [sendto] fails: the recorder is
    writable, its info header is still to be written, its mutex is free,
    the connection stays healthy, and the two messages of the handshake
    are on the wire. *)
Lemma create_healthy (g : globals) (d codec name : option string)
    (w : world) (rc : janus_recorder) (w' : world) :
  forallb accepting (pending (conn w)) = true ->
  janus_recorder_create g d codec name w = (Returns (Some rc), w') ->
  writable rc = 1 /\ header rc = 0 /\ mutex rc = false /\
  healthy w' = true /\
  wire (conn w') =
    wire (conn w)
    ++ stored 4 (strlen (filename rc)) ++ bytes_of (filename rc)
    ++ stored 4 8 ++ bytes_of "MJR00001".
Proof.
  intros Hp E. unfold janus_recorder_create in E.
  destruct codec as [codec|]; [|discriminate].
  destruct (codec_medium codec) as [t|]; [|discriminate].
  unfold janus_get_real_time in E.
  destruct (resolve_names d name) as [rec_dir rec_file].
  destruct (negb (directory_ready _ rec_dir)); [discriminate|].
  destruct (recording_name g rec_file _) as [newname|] eqn:En;
    [|discriminate].
  apply recording_name_length in En.
  cbn [host_found socket_fd] in E.
  destruct (negb (host_found w)); [discriminate|].
  destruct (socket_fd w <? 0); [discriminate|].
  unfold sys_connect in E. cbn [connect_ok] in E.
  destruct (connect_ok w); [|discriminate].
  change (0 <? 0) with false in E. cbv iota in E.
  match type of E with
  | context [send_message ?w1 newname] => set (wc := w1) in E
  end.
  assert (Hwc : healthy wc = true) by exact Hp.
  destruct (send_message wc newname) as [[r1 w1]|] eqn:E1; [|discriminate].
  destruct (send_message_healthy wc newname r1 w1 Hwc En E1)
    as (-> & rest1 & Hr1 & ->).
  destruct (Z.ltb_spec (strlen newname + 4) 0); [discriminate|].
  set (w1 := delivered wc _ rest1) in E.
  assert (Hw1 : healthy w1 = true) by now apply healthy_delivered.
  destruct (send_message w1 header_tag) as [[r2 w2]|] eqn:E2; [|discriminate].
  destruct (send_message_healthy w1 header_tag r2 w2 Hw1) with (2 := E2)
    as (-> & rest2 & Hr2 & ->); [cbv; split; congruence|].
  change (strlen header_tag + 4 <? 0) with false in E. cbv iota in E.
  injection E as <- <-.
  split; [reflexivity|]. split; [reflexivity|]. split; [reflexivity|].
  split; [now apply healthy_delivered|].
  unfold w1. rewrite delivered_delivered.
  cbn [filename delivered set_conn conn wire wc].
  rewrite <- !app_assoc. reflexivity.
Qed.

End Creation.

(** ** Names and paths *)




Lemma substring_whole (n : nat) (s : string) :
  (String.length s <= n)%nat -> String.substring 0 n s = s.
Proof.
  revert n. induction s as [|x s IH]; intros n Hn.
  - destruct n; reflexivity.
  - destruct n as [|n]; cbn in Hn |- *; [lia|].
    rewrite IH by lia. reflexivity.
Qed.

Lemma g_snprintf_fits (size : Z) (text : string) :
  strlen text < size -> g_snprintf size text = text.
Proof.
  intro Hs. unfold g_snprintf. apply substring_whole. unfold strlen in Hs.
  lia.
Qed.

(** Under the temporary-name policy a recording gets the tagged name
    [<file>.mjr.<ext>], as long as it fits the 1024 bytes of [newname]. *)
Lemma recording_name_tagged (g : globals) (f ext : string) (w : world) :
  rec_tempname g = true -> rec_tempext g = string_at ext ->
  strlen (f ++ ".mjr." ++ ext) < 1024 ->
  recording_name g (Some f) w = Some (f ++ ".mjr." ++ ext)%string.
Proof.
  intros Hpol Hext Hfit. unfold recording_name.
  rewrite Hpol, Hext. cbn [negb]. now rewrite g_snprintf_fits.
Qed.


(** ** Codec names *)




Section Codecs.
Context `{Host}.



End Codecs.

(** * The claims *)

(** C1, as stated, fails: the first bytes a successful creation puts on
    the connection are the native-endian length of the recording's name,
    not the magic tag, and the tag itself is preceded by its own 4-byte
    length. *)
Lemma create_stream_begins_with_name_length :
  exists rc w',
    @janus_recorder_create Sample.host globals_at_start
      (Some "/tmp"%string) (Some "opus"%string) (Some "test1"%string)
      (Sample.world0 []) = (Returns (Some rc), w') /\
    firstn 8 (wire (conn w')) <> bytes_of header_tag /\
    wire (conn w') =
      [x09; x00; x00; x00] ++ bytes_of "test1.mjr"
      ++ [x08; x00; x00; x00] ++ bytes_of "MJR00001".
Proof.
  eexists _, _. split; [vm_compute; reflexivity|].
  split; [vm_compute; discriminate | vm_compute; reflexivity].
Qed.

(** C1, amended: when no [sendto] fails, a successful creation puts on
    the connection the 4-byte native-endian length of the recording's
    name, the name, the 4-byte native-endian number 8 and then the magic
    tag ["MJR00001"], and nothing after it: the tag comes before any
    metadata and any frame. *)
Theorem create_emits_name_then_magic `{Host} (g : globals)
    (d codec name : option string) (w : world)
    (rc : janus_recorder) (w' : world) :
  forallb accepting (pending (conn w)) = true ->
  janus_recorder_create g d codec name w = (Returns (Some rc), w') ->
  wire (conn w') =
    wire (conn w)
    ++ stored 4 (strlen (filename rc))
    ++ bytes_of (filename rc)
    ++ stored 4 8 ++ bytes_of "MJR00001".
Proof.
  intros Hp E. now apply (create_healthy g d codec name w rc w' Hp E).
Qed.

Lemma create_emits_name_then_magic_witness :
  forallb accepting (pending (conn (Sample.world0 [send_accepts 3]))) = true
  /\
  wire (conn (snd (@janus_recorder_create Sample.host globals_at_start
                     (Some "/tmp"%string) (Some "opus"%string)
                     (Some "test1"%string)
                     (Sample.world0 [send_accepts 3])))) =
    [] ++ @stored Sample.host 4 9 ++ bytes_of "test1.mjr"
    ++ @stored Sample.host 4 8 ++ bytes_of "MJR00001".
Proof.
  split; [reflexivity|].
  apply (@create_emits_name_then_magic Sample.host globals_at_start
           (Some "/tmp"%string) (Some "opus"%string) (Some "test1"%string)
           (Sample.world0 [send_accepts 3])
           Sample.audio);
    [reflexivity | vm_compute; reflexivity].
Defined.

(** C2 (defect): when the frame tag cannot be sent the call returns -5
    with the mutex still held, and the next call on the recorder waits for
    it for ever. *)
Theorem save_frame_keeps_mutex_when_tag_fails :
  let w := Sample.connected [send_error] in
  let payload := Some [x01; x02; x03] in
  exists rc' w',
    @janus_recorder_save_frame Sample.host (Some Sample.audio_started)
      payload 3 w = (Returns (-5), Some rc', w') /\
    mutex rc' = true /\
    fst (fst (@janus_recorder_save_frame Sample.host (Some rc')
                payload 3 w')) = Blocked.
Proof.
  eexists _, _. split; [vm_compute; reflexivity|].
  split; vm_compute; reflexivity.
Qed.

(** C3 (defect): a [sendto] that fails after part of the buffer was sent
    goes unnoticed.  Here the first call takes one byte of two, the second
    fails and the third takes what it is given: [send_tcp_content] steps
    one byte back, sends the first byte again and returns 2, as for a
    complete write. *)
Theorem send_tcp_content_reports_success_after_error :
  let w := Sample.connected [send_accepts 1; send_error] in
  let res := send_tcp_content w [x41; x42] 2 in
  fst res = 2 /\ wire (conn (snd res)) = [x41; x41; x42].
Proof. vm_compute. split; reflexivity. Qed.

(** C4 (defect): when the metadata block cannot be sent the call returns
    -5 and leaves the [header] flag at 0, but it also leaves the mutex
    held (and the socket closed): the next call cannot get as far as
    sending the block again. *)
Theorem info_failure_leaves_mutex_held :
  let w := Sample.connected [send_error] in
  let payload := Some [x01; x02; x03] in
  exists rc' w',
    @janus_recorder_save_frame Sample.host (Some Sample.audio)
      payload 3 w = (Returns (-5), Some rc', w') /\
    header rc' = 0 /\ mutex rc' = true /\
    sock_open (conn w') = false /\
    @janus_recorder_save_frame Sample.host (Some rc') payload 3 w'
      = (Blocked, Some rc', w').
Proof.
  eexists _, _. split; [vm_compute; reflexivity|].
  repeat split; vm_compute; reflexivity.
Qed.

(** C5 (defect): a [sendto] that fails while the metadata block is being
    sent is not noticed (the defect of C3), and the block reaches the peer
    garbled.  With a first [sendto] that takes 2 bytes and a second that
    returns -1, two frame calls on a fresh recorder both return 0 and the
    [header] flag is set, yet what the peer has received starts with the
    two length bytes followed by the block from its second byte on: the
    stream does not begin with a metadata block, whatever time the block
    would hold, and no metadata block precedes the first frame record. *)
Theorem metadata_block_garbled_by_failed_send :
  let rc := Sample.audio in
  let w := Sample.connected [send_accepts 2; send_error] in
  let first := @janus_recorder_save_frame Sample.host (Some rc)
                 (Some [x01; x02; x03]) 3 w in
  let second := @janus_recorder_save_frame Sample.host (snd (fst first))
                  (Some [x04]) 1 (snd first) in
  let block := metadata_block (@info_text Sample.host rc 1000) in
  let frames := frame_record JANUS_RECORDER_AUDIO 0 [x01; x02; x03]
                ++ frame_record JANUS_RECORDER_AUDIO 0 [x04] in
  fst (fst first) = Returns 0 /\ fst (fst second) = Returns 0 /\
  option_map header (snd (fst first)) = Some 1 /\
  wire (conn (snd second)) = firstn 2 block ++ skipn 1 block ++ frames /\
  wire (conn (snd second)) <> block ++ frames /\
  (forall (now : Z) (rest : list byte),
     wire (conn (snd second))
     <> metadata_block (@info_text Sample.host rc now) ++ rest).
Proof.
  intros rc w first second block frames.
  split; [vm_compute; reflexivity|].
  split; [vm_compute; reflexivity|].
  split; [vm_compute; reflexivity|].
  split; [vm_compute; reflexivity|].
  split; [vm_compute; discriminate|].
  intros now rest E.
  apply (f_equal (fun l => nth 2 l x00)) in E.
  unfold metadata_block in E. rewrite <- app_assoc in E.
  rewrite (app_nth2 (be_bytes 2 _)) in E
    by (rewrite length_be_bytes; apply Nat.le_refl).
  rewrite length_be_bytes in E.
  change (nth 2 (wire (conn (snd second))) x00) with x2d in E.
  cbn in E. discriminate.
Qed.




(** C7, as stated, fails: the call takes the mutex before it looks at its
    arguments, so that with a NULL payload it does not return -2 while
    another caller holds the mutex: it waits. *)
Lemma empty_frame_waits_for_mutex :
  @janus_recorder_save_frame Sample.host (Some Sample.audio_busy) None 0
    (Sample.connected [])
  = (Blocked, Some Sample.audio_busy, Sample.connected []) /\
  fst (fst (@janus_recorder_save_frame Sample.host (Some Sample.audio_busy)
              None 0 (Sample.connected []))) <> Returns (-2).
Proof. split; [reflexivity | discriminate]. Qed.

(** C7, amended: a call with a NULL payload or a length below 1 takes the
    recorder's mutex, returns -2 and releases the mutex; it leaves the
    recorder and the world as they were, so that no byte reaches the
    connection.  While the mutex is held by another caller it waits. *)
Theorem save_frame_rejects_empty `{Host} (rc : janus_recorder)
    (buffer : option (list byte)) (length : Z) (w : world) :
  buffer = None \/ length < 1 ->
  janus_recorder_save_frame (Some rc) buffer length w =
    if mutex rc then (Blocked, Some rc, w) else (Returns (-2), Some rc, w).
Proof.
  intro Hbad. unfold janus_recorder_save_frame.
  destruct (mutex rc) eqn:Em; [reflexivity|].
  assert (Hrc : set_mutex (set_mutex rc true) false = rc).
  { destruct rc. cbn in Em. subst. reflexivity. }
  destruct buffer as [b|].
  - destruct Hbad as [Hb|Hl]; [discriminate|].
    destruct (Z.ltb_spec length 1); [|lia]. now rewrite Hrc.
  - now rewrite Hrc.
Qed.

Lemma save_frame_rejects_empty_witness :
  @janus_recorder_save_frame Sample.host (Some Sample.audio)
    (Some [x01]) 0 (Sample.connected [])
  = (Returns (-2), Some Sample.audio, Sample.connected []).
Proof.
  apply (@save_frame_rejects_empty Sample.host Sample.audio (Some [x01]) 0
           (Sample.connected [])).
  right. lia.
Defined.

(** C8: [janus_recorder_close] takes [writable] from 1 to 0 by
    compare-and-exchange; when the flag is not 1 it returns -1 and changes
    nothing.  A second close after a first one therefore returns -1 and
    changes nothing, and the two together call [close] on the socket at
    most once and [rename] at most once. *)
Theorem close_twice (g1 g2 : globals) (rc : janus_recorder)
    (w : world) :
  let '(o1, r1, w1) := janus_recorder_close g1 (Some rc) w in
  let '(o2, r2, w2) := janus_recorder_close g2 r1 w1 in
  (if writable rc =? 1
   then exists rc1, r1 = Some rc1 /\ writable rc1 = 0
   else (o1, r1, w1) = (Returns (-1), Some rc, w)) /\
  (o2, r2, w2) = (Returns (-1), r1, w1) /\
  (closes (conn w2) <= S (closes (conn w)))%nat /\
  (List.length (renames (fs w2)) <= S (List.length (renames (fs w))))%nat.
Proof.
  assert (Hsecond : forall rc1 w1,
             writable rc1 <> 1 ->
             janus_recorder_close g2 (Some rc1) w1
             = (Returns (-1), Some rc1, w1)).
  { intros rc1 w1 Hne. unfold janus_recorder_close.
    destruct (Z.eqb_spec (writable rc1) 1); [contradiction | reflexivity]. }
  unfold janus_recorder_close at 1.
  destruct (Z.eqb_spec (writable rc) 1) as [Hw|Hw]; cbn [negb].
  2:{ rewrite Hsecond by exact Hw. repeat split; lia. }
  cbn [mutex set_writable set_mutex tcpsock].
  destruct (mutex rc).
  { rewrite Hsecond by (cbn; lia). repeat split; try lia.
    eexists. split; reflexivity. }
  set (wc := if 0 <? tcpsock rc then sys_close w else w).
  assert (Hc : (closes (conn wc) <= S (closes (conn w)))%nat)
    by (unfold wc; destruct (0 <? tcpsock rc); cbn; lia).
  assert (Hr : renames (fs wc) = renames (fs w))
    by (unfold wc; destruct (0 <? tcpsock rc); reflexivity).
  assert (Hdone : forall rc1 : janus_recorder,
             writable rc1 = 0 ->
             let '(o2, r2, w2) := janus_recorder_close g2 (Some rc1) wc in
             (exists rc2, Some rc1 = Some rc2 /\ writable rc2 = 0) /\
             (o2, r2, w2) = (Returns (-1), Some rc1, wc) /\
             (closes (conn w2) <= S (closes (conn w)))%nat /\
             (List.length (renames (fs w2))
              <= S (List.length (renames (fs w))))%nat).
  { intros rc1 Hz. rewrite Hsecond by lia.
    rewrite Hr. repeat split; try lia. now exists rc1. }
  destruct (rec_tempname g1); [|now apply Hdone].
  destruct (rec_tempext g1) as [|ext|];
    [now apply Hdone | | now apply Hdone].
  cbn [filename dir set_mutex set_writable].
  destruct (1024 <=? strlen (untagged_name (filename rc) ext));
    [now apply Hdone|].
  unfold sys_rename.
  destruct (rename_ok (fs wc) _ _); cbn [negb Z.eqb];
    rewrite Hsecond by (cbn; lia);
    (repeat split;
     [eexists; split; reflexivity
     | cbn; exact Hc
     | cbn; rewrite length_app, Hr; cbn; lia]).
Qed.







(** * Further properties *)

(** ** [send_tcp_content] in any world *)

Lemma only_sent_refl (w : world) : only_sent w w.
Proof.
  exists [], (pending (conn w)).
  destruct w as [[o wi p c] f hf sf co rt cr ru]. cbn.
  unfold set_conn. cbn. now rewrite app_nil_r.
Qed.

Lemma only_sent_trans (a b c : world) :
  only_sent a b -> only_sent b c -> only_sent a c.
Proof.
  intros (e1 & r1 & ->) (e2 & r2 & ->).
  exists (e1 ++ e2), r2. unfold set_conn. cbn. now rewrite app_assoc.
Qed.

Lemma sys_sendto_only_sent (w : world) (data : list byte) (n : Z) :
  only_sent w (snd (sys_sendto w data n)).
Proof.
  destruct w as [[o wi p c] f hf sf co rt cr ru].
  unfold sys_sendto, only_sent, set_conn. cbn.
  destruct o; cbn.
  - destruct p as [|[|k] rest]; cbn.
    + eexists _, _. reflexivity.
    + exists [], rest. now rewrite app_nil_r.
    + eexists _, _. reflexivity.
  - exists [], p. now rewrite app_nil_r.
Qed.

Lemma send_loop_only_sent (fuel : nat) :
  forall (w : world) (buf : list byte) (len off r : Z) (w' : world),
    send_loop fuel w buf len off = Some (r, w') -> only_sent w w'.
Proof.
  induction fuel as [|fuel IH]; intros w buf len off r w' E;
    cbn [send_loop] in E; destruct (off <? len).
  - discriminate.
  - injection E as _ <-. apply only_sent_refl.
  - pose proof (sys_sendto_only_sent w (skipn (Z.to_nat off) buf)
                  (len - off)) as Hs.
    destruct (sys_sendto w _ _) as [r1 w1]. cbn [snd] in Hs.
    destruct (to_size_t r1 <? 0).
    + injection E as _ <-. exact Hs.
    + apply (only_sent_trans _ _ _ Hs). eapply IH. exact E.
  - injection E as _ <-. apply only_sent_refl.
Qed.

Lemma send_tcp_content_only_sent (w : world) (buf : list byte) (len : Z) :
  only_sent w (snd (send_tcp_content w buf len)).
Proof.
  unfold send_tcp_content.
  destruct (send_loop _ w buf _ 0) as [[r w']|] eqn:E; cbn [snd].
  - eapply send_loop_only_sent. exact E.
  - apply only_sent_refl.
Qed.

Lemma to_int_negative (len : Z) :
  2 ^ 31 <= len < 2 ^ 32 -> to_int len = len - 2 ^ 32.
Proof.
  intro Hl. unfold to_int, wrap_signed.
  rewrite Z.mod_small by lia. change (2 ^ (32 - 1)) with (2 ^ 31).
  destruct (Z.ltb_spec len (2 ^ 31)); [lia | reflexivity].
Qed.

(** X1: on a connection where no [sendto] fails, [send_tcp_content] sends
    the first [len] bytes of the buffer, all of them and in order, however
    short the writes that the connection imposes, and returns [len]. *)
Theorem send_tcp_content_writes_whole_buffer (w : world) (buf : list byte)
                                             (len : Z) :
  healthy w = true -> 0 <= len < 2 ^ 31 ->
  len <= Z.of_nat (List.length buf) ->
  fst (send_tcp_content w buf len) = len /\
  wire (conn (snd (send_tcp_content w buf len))) =
    wire (conn w) ++ firstn (Z.to_nat len) buf /\
  healthy (snd (send_tcp_content w buf len)) = true /\
  closes (conn (snd (send_tcp_content w buf len))) = closes (conn w).
Proof.
  intros Hw Hlen _.
  destruct (send_tcp_content_healthy w buf len Hw) as (rest & Hr & E);
    [lia|].
  rewrite E. cbn [fst snd]. split; [apply to_int_small; exact Hlen|].
  split; [reflexivity|]. split; [now apply healthy_delivered | reflexivity].
Qed.

Lemma send_tcp_content_writes_whole_buffer_witness :
  let w := Sample.connected [send_accepts 1; send_accepts 0; send_accepts 5] in
  fst (send_tcp_content w [x41; x42; x43] 3) = 3 /\
  wire (conn (snd (send_tcp_content w [x41; x42; x43] 3))) =
    wire (conn w) ++ firstn (Z.to_nat 3) [x41; x42; x43] /\
  healthy (snd (send_tcp_content w [x41; x42; x43] 3)) = true /\
  closes (conn (snd (send_tcp_content w [x41; x42; x43] 3))) =
    closes (conn w).
Proof.
  intro w.
  apply (send_tcp_content_writes_whole_buffer w [x41; x42; x43] 3);
    [reflexivity | lia | cbn; lia].
Defined.

(** X2: whatever the connection does, [send_tcp_content] only adds bytes
    to what the peer has received: it takes nothing back, it neither
    opens nor closes the descriptor, and it leaves the file system and
    the clock alone. *)
Theorem send_tcp_content_only_appends (w : world) (buf : list byte)
                                      (len : Z) :
  let w' := snd (send_tcp_content w buf len) in
  (exists extra, wire (conn w') = wire (conn w) ++ extra) /\
  sock_open (conn w') = sock_open (conn w) /\
  closes (conn w') = closes (conn w) /\
  fs w' = fs w /\ clock_reads w' = clock_reads w.
Proof.
  cbv zeta.
  destruct (send_tcp_content_only_sent w buf len) as (extra & rest & ->).
  cbn. split; [now exists extra|]. repeat split.
Qed.

(** X3: when the very first [sendto] fails, because the descriptor is
    closed or because the call returns -1, [send_tcp_content] returns -1
    and nothing reaches the peer. *)
Theorem send_tcp_content_first_failure (w : world) (buf : list byte)
                                       (len : Z) :
  0 < len < 2 ^ 64 ->
  sock_open (conn w) = false \/
  (exists rest, pending (conn w) = send_error :: rest) ->
  fst (send_tcp_content w buf len) = -1 /\
  wire (conn (snd (send_tcp_content w buf len))) = wire (conn w).
Proof.
  intros Hlen Hfail. unfold send_tcp_content, send_fuel.
  rewrite to_size_t_small by lia. cbn [send_loop].
  destruct (Z.ltb_spec 0 len) as [_|]; [|lia].
  assert (Hsend : exists w1,
             sys_sendto w (skipn (Z.to_nat 0) buf) (len - 0) = (-1, w1)
             /\ wire (conn w1) = wire (conn w)).
  { unfold sys_sendto. destruct Hfail as [Hc|(rest & Hp)].
    - rewrite Hc. cbn [negb]. now exists w.
    - destruct (sock_open (conn w)); cbn [negb]; [|now exists w].
      rewrite Hp. eexists. split; reflexivity. }
  destruct Hsend as (w1 & -> & Hwire).
  change (to_size_t (-1)) with (2 ^ 64 - 1).
  change (2 ^ 64 - 1 <? 0) with false. cbv iota.
  change (to_size_t (0 + (2 ^ 64 - 1))) with (2 ^ 64 - 1).
  destruct (List.length (pending (conn w))); cbn [send_loop];
    (destruct (Z.ltb_spec (2 ^ 64 - 1) len); [lia|]);
    cbn [fst snd]; (split; [reflexivity | exact Hwire]).
Qed.

Lemma send_tcp_content_first_failure_witness :
  let w := Sample.connected [send_error; send_accepts 2] in
  fst (send_tcp_content w [x41; x42] 2) = -1 /\
  wire (conn (snd (send_tcp_content w [x41; x42] 2))) = wire (conn w).
Proof.
  intro w.
  apply (send_tcp_content_first_failure w [x41; x42] 2); [lia|].
  right. eexists. reflexivity.
Defined.

(** X4: a buffer of 2 GiB or more (and less than 4 GiB) is sent whole on
    a connection where no [sendto] fails, and yet the call is reported as
    failed: the number of bytes sent, returned as an [int], is
    negative. *)
Theorem send_tcp_content_two_gib_reported_failed (w : world)
    (buf : list byte) (len : Z) :
  healthy w = true -> 2 ^ 31 <= len < 2 ^ 32 ->
  len <= Z.of_nat (List.length buf) ->
  fst (send_tcp_content w buf len) = len - 2 ^ 32 /\
  fst (send_tcp_content w buf len) < 0 /\
  wire (conn (snd (send_tcp_content w buf len))) =
    wire (conn w) ++ firstn (Z.to_nat len) buf.
Proof.
  intros Hw Hlen _.
  destruct (send_tcp_content_healthy w buf len Hw) as (rest & Hr & E);
    [lia|].
  rewrite E. cbn [fst snd]. rewrite to_int_negative by exact Hlen.
  repeat split. lia.
Qed.

Lemma send_tcp_content_two_gib_reported_failed_witness :
  let w := Sample.connected [] in
  let buf := repeat x41 (Z.to_nat (2 ^ 31)) in
  fst (send_tcp_content w buf (2 ^ 31)) = 2 ^ 31 - 2 ^ 32 /\
  fst (send_tcp_content w buf (2 ^ 31)) < 0 /\
  wire (conn (snd (send_tcp_content w buf (2 ^ 31)))) =
    wire (conn w) ++ firstn (Z.to_nat (2 ^ 31)) buf.
Proof.
  intros w buf.
  apply (send_tcp_content_two_gib_reported_failed w buf (2 ^ 31));
    [reflexivity | lia | unfold buf; rewrite repeat_length; lia].
Defined.

(** ** Byte order *)

Lemma to_gint64_range (y : Z) : - 2 ^ 63 <= to_gint64 y < 2 ^ 63.
Proof.
  unfold to_gint64, wrap_signed.
  pose proof (Z.mod_pos_bound y (2 ^ 64) ltac:(lia)) as Hm.
  change (2 ^ (64 - 1)) with (2 ^ 63).
  destruct (Z.ltb_spec (y mod 2 ^ 64) (2 ^ 63)); lia.
Qed.

Lemma congruent_halves (a b : Z) :
  a mod 2 ^ 32 = b mod 2 ^ 32 ->
  - 2 ^ 31 <= a < 2 ^ 31 -> - 2 ^ 31 <= b < 2 ^ 31 -> a = b.
Proof.
  intros E Ha Hb.
  pose proof (Z.div_mod a (2 ^ 32) ltac:(lia)) as Da.
  pose proof (Z.div_mod b (2 ^ 32) ltac:(lia)) as Db.
  pose proof (Z.mod_pos_bound a (2 ^ 32) ltac:(lia)).
  rewrite E in Da. lia.
Qed.

Section Swaps.
Context `{Host}.

Lemma ntohl_is_htonl (x : Z) : ntohl x = htonl x.
Proof.
  unfold ntohl, htonl, stored, loaded, be_value, be_bytes.
  destruct little_endian; [reflexivity|].
  now rewrite rev_involutive.
Qed.

Lemma ntohll_is_htonll (x : Z) : ntohll x = htonll x.
Proof.
  unfold ntohll, htonll. now rewrite !ntohl_is_htonl.
Qed.

Lemma htonl_mod (x : Z) : htonl (x mod 2 ^ 32) = htonl x.
Proof.
  unfold htonl, to_uint32, wrap_unsigned. now rewrite Z.mod_mod by lia.
Qed.

(** On a little-endian host [htonl] reverses the four bytes, so that
    applying it twice gives the argument back. *)
Lemma htonl_twice (x : Z) :
  little_endian = true -> htonl (htonl x) = x mod 2 ^ 32.
Proof.
  intro Hle.
  pose proof (stored_htonl x) as Hs. unfold stored in Hs. rewrite Hle in Hs.
  pose proof (htonl_range x) as Hr.
  unfold htonl at 1. unfold loaded. rewrite Hle.
  unfold to_uint32, wrap_unsigned. rewrite Z.mod_small by exact Hr.
  unfold be_bytes at 1. rewrite Hs. unfold be_bytes.
  rewrite rev_involutive. apply (le_value_le_bytes 4).
Qed.

(** The shape of [htonll x] on a little-endian host. *)
Lemma htonll_little_endian (x : Z) :
  little_endian = true ->
  exists a,
    htonll x = 2 ^ 32 * a + htonl (Z.shiftr x 32) /\
    a mod 2 ^ 32 = htonl (Z.land x 4294967295) /\
    - 2 ^ 31 <= a < 2 ^ 31.
Proof.
  intro Hle. unfold htonll.
  assert (Hone : (htonl 1 =? 1) = false).
  { unfold htonl, loaded. now rewrite Hle. }
  rewrite Hone.
  pose proof (htonl_range (Z.land x 4294967295)) as Ha.
  pose proof (htonl_range (Z.shiftr x 32)) as Hb.
  destruct (gint64_of_shifted _ Ha) as (a & Ea & Hmod).
  pose proof (to_gint64_range
                (Z.shiftl (htonl (Z.land x 4294967295)) 32)) as Hr.
  exists a. rewrite Ea in Hr |- *.
  replace (2 ^ 32 * a) with (Z.shiftl a 32)
    by (rewrite Z.shiftl_mul_pow2; lia).
  rewrite lor_shifted_low by exact Hb.
  rewrite Z.shiftl_mul_pow2 by lia.
  split; [lia|]. split; [|lia].
  rewrite Hmod. apply Z.mod_small. exact Ha.
Qed.

Lemma htonll_twice (x : Z) :
  - 2 ^ 63 <= x < 2 ^ 63 -> htonll (htonll x) = x.
Proof.
  intro Hx. destruct little_endian eqn:Hle.
  2:{ unfold htonll.
      assert (Hone : (htonl 1 =? 1) = true)
        by (unfold htonl, loaded; now rewrite Hle).
      now rewrite Hone. }
  destruct (htonll_little_endian x Hle) as (a & Er & Ha & Hra).
  destruct (htonll_little_endian (htonll x) Hle) as (a2 & Er2 & Ha2 & Hra2).
  pose proof (htonl_range (Z.shiftr x 32)) as Hb.
  assert (Hdiv : Z.shiftr (htonll x) 32 = a).
  { rewrite Z.shiftr_div_pow2 by lia. rewrite Er. symmetry.
    apply (Z.div_unique_pos _ (2 ^ 32) a (htonl (Z.shiftr x 32)));
      [exact Hb | reflexivity]. }
  assert (Hlow : Z.land (htonll x) 4294967295 = htonl (Z.shiftr x 32)).
  { change 4294967295 with (Z.ones 32). rewrite Z.land_ones by lia.
    rewrite Er. symmetry.
    apply (Z.mod_unique_pos _ (2 ^ 32) a); [exact Hb | reflexivity]. }
  rewrite Er2, Hdiv. rewrite Hlow in Ha2.
  rewrite htonl_twice in Ha2 by exact Hle.
  rewrite <- (htonl_mod a), Ha, htonl_twice by exact Hle.
  change 4294967295 with (Z.ones 32). rewrite Z.land_ones by lia.
  rewrite Z.mod_mod by lia.
  rewrite Z.shiftr_div_pow2 in Ha2 by lia.
  assert (Ea2 : a2 = x / 2 ^ 32).
  { apply congruent_halves; [|exact Hra2|].
    - exact Ha2.
    - split.
      + apply Z.div_le_lower_bound; lia.
      + apply Z.div_lt_upper_bound; lia. }
  rewrite Ea2. symmetry. apply Z.div_mod. lia.
Qed.

End Swaps.

(** X5: whatever the byte order of the host, the eight bytes that
    [htonll] leaves in memory are the big-endian encoding of its argument:
    read back most significant byte first they give the argument modulo
    2^64. *)
Theorem htonll_stores_big_endian `{Host} (x : Z) :
  stored 8 (htonll x) = be_bytes 8 x /\
  be_value (stored 8 (htonll x)) = x mod 2 ^ 64.
Proof.
  rewrite stored_htonll. split; [reflexivity|].
  apply (be_value_be_bytes 8).
Qed.

(** X6: [ntohll] undoes [htonll], and [htonll] undoes [ntohll], on every
    [gint64] and on either kind of host. *)
Theorem ntohll_htonll_round_trip `{Host} (x : Z) :
  - 2 ^ 63 <= x < 2 ^ 63 ->
  ntohll (htonll x) = x /\ htonll (ntohll x) = x.
Proof.
  intro Hx. rewrite !ntohll_is_htonll.
  split; apply htonll_twice; exact Hx.
Qed.

Lemma ntohll_htonll_round_trip_witness :
  @ntohll Sample.host (@htonll Sample.host (-1000000007)) = -1000000007 /\
  @htonll Sample.host (@ntohll Sample.host (-1000000007)) = -1000000007.
Proof.
  apply (@ntohll_htonll_round_trip Sample.host (-1000000007)). lia.
Defined.

(** ** Creation in any world *)

Lemma only_sent_parts (w w' : world) :
  only_sent w w' ->
  (exists extra, wire (conn w') = wire (conn w) ++ extra) /\
  sock_open (conn w') = sock_open (conn w) /\
  closes (conn w') = closes (conn w) /\
  fs w' = fs w /\ clock_reads w' = clock_reads w /\
  real_time w' = real_time w.
Proof.
  intros (extra & rest & ->). cbn. split; [now exists extra|].
  repeat split.
Qed.

Section CreationAnywhere.
Context `{Host}.

Lemma send_message_only_sent (w : world) (text : string) (r : Z)
                             (w' : world) :
  send_message w text = Some (r, w') -> only_sent w w'.
Proof.
  unfold send_message. destruct (staged _ _) as [buf|]; [|discriminate].
  intro E. injection E as E.
  pose proof (send_tcp_content_only_sent w buf (strlen text + 4)) as Hs.
  rewrite E in Hs. exact Hs.
Qed.

(** What a creation that succeeds leaves, whatever the world does. *)
Lemma create_success (g : globals) (d cname name : option string)
    (w : world) (rc : janus_recorder) (w' : world) :
  janus_recorder_create g d cname name w = (Returns (Some rc), w') ->
  (writable rc = 1 /\ header rc = 0 /\ mutex rc = false /\ destroyed rc = 0)
  /\ (tcpsock rc = socket_fd w /\ 0 <= socket_fd w)
  /\ (cname = Some (codec rc) /\
      created rc = real_time w (clock_reads w) /\
      dir rc = fst (resolve_names d name) /\
      recording_name g (snd (resolve_names d name)) w = Some (filename rc))
  /\ (sock_open (conn w') = true /\ closes (conn w') = closes (conn w) /\
      fs w' = fs w /\ clock_reads w' = S (clock_reads w) /\
      real_time w' = real_time w /\
      exists extra, wire (conn w') = wire (conn w) ++ extra).
Proof.
  intro E. unfold janus_recorder_create in E.
  destruct cname as [c|]; [|discriminate].
  destruct (codec_medium c) as [t|]; [|discriminate].
  unfold janus_get_real_time in E.
  destruct (resolve_names d name) as [rec_dir rec_file].
  destruct (negb (directory_ready _ rec_dir)); [discriminate|].
  destruct (recording_name g rec_file _) as [newname|] eqn:En;
    [|discriminate].
  cbn [host_found socket_fd] in E.
  destruct (negb (host_found w)); [discriminate|].
  destruct (Z.ltb_spec (socket_fd w) 0) as [|Hfd]; [discriminate|].
  unfold sys_connect in E. cbn [connect_ok] in E.
  destruct (connect_ok w); [|discriminate].
  change (0 <? 0) with false in E. cbv iota in E.
  match type of E with
  | context [send_message ?w1 newname] => set (wc := w1) in E
  end.
  destruct (send_message wc newname) as [[r1 w1]|] eqn:E1; [|discriminate].
  destruct (r1 <? 0); [discriminate|].
  destruct (send_message w1 header_tag) as [[r2 w2]|] eqn:E2; [|discriminate].
  destruct (r2 <? 0); [discriminate|].
  injection E as <- <-.
  apply send_message_only_sent in E1, E2.
  destruct (only_sent_parts _ _ (only_sent_trans _ _ _ E1 E2))
    as ((extra & Hwire) & Ho & Hc & Hf & Hr & Hrt).
  cbn [writable header mutex destroyed tcpsock codec created dir filename
       fst snd].
  repeat split; try reflexivity; try assumption;
    try (rewrite Ho; reflexivity); try (rewrite Hc; reflexivity);
    try (rewrite Hf; reflexivity); try (rewrite Hr; reflexivity);
    try (rewrite Hrt; reflexivity).
  exists extra. rewrite Hwire. reflexivity.
Qed.

(** What a creation that returns NULL leaves: the connection as it was,
    or the descriptor closed. *)
Lemma create_failure (g : globals) (d cname name : option string)
    (w w' : world) :
  janus_recorder_create g d cname name w = (Returns None, w') ->
  conn w' = conn w \/
  (sock_open (conn w') = false /\ closes (conn w') = S (closes (conn w))).
Proof.
  intro E. unfold janus_recorder_create in E.
  destruct cname as [c|]; [|injection E as <-; now left].
  destruct (codec_medium c) as [t|]; [|injection E as <-; now left].
  unfold janus_get_real_time in E.
  destruct (resolve_names d name) as [rec_dir rec_file].
  destruct (negb (directory_ready _ rec_dir));
    [injection E as <-; now left|].
  destruct (recording_name g rec_file _) as [newname|]; [|discriminate].
  cbn [host_found socket_fd] in E.
  destruct (negb (host_found w)); [injection E as <-; now left|].
  destruct (socket_fd w <? 0); [injection E as <-; now left|].
  unfold sys_connect in E. cbn [connect_ok] in E.
  destruct (connect_ok w).
  2:{ change (-1 <? 0) with true in E. cbv iota in E.
      injection E as <-. right. split; reflexivity. }
  change (0 <? 0) with false in E. cbv iota in E.
  match type of E with
  | context [send_message ?w1 newname] => set (wc := w1) in E
  end.
  destruct (send_message wc newname) as [[r1 w1]|] eqn:E1; [|discriminate].
  apply send_message_only_sent in E1.
  destruct (r1 <? 0).
  { injection E as <-. right.
    destruct (only_sent_parts _ _ E1) as (_ & _ & Hc & _).
    cbn. rewrite Hc. split; reflexivity. }
  destruct (send_message w1 header_tag) as [[r2 w2]|] eqn:E2; [|discriminate].
  apply send_message_only_sent in E2.
  destruct (r2 <? 0); [|discriminate].
  injection E as <-. right.
  destruct (only_sent_parts _ _ (only_sent_trans _ _ _ E1 E2))
    as (_ & _ & Hc & _).
  cbn. rewrite Hc. split; reflexivity.
Qed.

End CreationAnywhere.

(** X7: a creation that fails, at whatever step, leaves no descriptor
    open: if the connection was not open before the call it is not open
    after it, and [close] is called at most once. *)
Theorem create_failure_leaves_no_descriptor `{Host} (g : globals)
    (d cname name : option string) (w w' : world) :
  sock_open (conn w) = false ->
  janus_recorder_create g d cname name w = (Returns None, w') ->
  sock_open (conn w') = false /\
  (closes (conn w') <= S (closes (conn w)))%nat.
Proof.
  intros Hclosed E.
  destruct (create_failure g d cname name w w' E) as [Ec|[Ho Hc]].
  - rewrite Ec. split; [exact Hclosed | lia].
  - split; [exact Ho | lia].
Qed.

Lemma create_failure_leaves_no_descriptor_witness :
  let w := Sample.world0 [send_accepts 2; send_error; send_error;
                          send_error] in
  let w' := snd (@janus_recorder_create Sample.host globals_at_start
                   None (Some "opus"%string) (Some "a"%string) w) in
  sock_open (conn w') = false /\
  (closes (conn w') <= S (closes (conn w)))%nat.
Proof.
  intros w w'.
  apply (@create_failure_leaves_no_descriptor Sample.host globals_at_start
           None (Some "opus"%string) (Some "a"%string) w w');
    [reflexivity | vm_compute; reflexivity].
Defined.

(** X8: whatever the world does, a recorder that [janus_recorder_create]
    returns is writable, has its info header still to write, a free mutex
    and [destroyed] at 0; it holds the codec name as it was passed, the
    descriptor that [socket] returned, which is not negative, and a name
    of fewer than 1024 characters; and the connection is open. *)
Theorem create_leaves_fresh_recorder `{Host} (g : globals)
    (d cname name : option string) (w : world)
    (rc : janus_recorder) (w' : world) :
  janus_recorder_create g d cname name w = (Returns (Some rc), w') ->
  writable rc = 1 /\ header rc = 0 /\ mutex rc = false /\ destroyed rc = 0
  /\ cname = Some (codec rc)
  /\ tcpsock rc = socket_fd w /\ 0 <= tcpsock rc
  /\ 0 <= strlen (filename rc) < 1024
  /\ created rc = real_time w (clock_reads w)
  /\ sock_open (conn w') = true.
Proof.
  intro E.
  destruct (create_success g d cname name w rc w' E)
    as ((Hw & Hh & Hm & Hd) & (Ht & Hfd) & (Hc & Hcr & _ & Hn)
        & (Ho & _)).
  apply recording_name_length in Hn.
  repeat split; try assumption; try lia.
Qed.

Lemma create_leaves_fresh_recorder_witness :
  writable Sample.audio = 1 /\ header Sample.audio = 0 /\
  mutex Sample.audio = false /\ destroyed Sample.audio = 0
  /\ Some "opus"%string = Some (codec Sample.audio)
  /\ tcpsock Sample.audio = socket_fd (Sample.world0 [send_error])
  /\ 0 <= tcpsock Sample.audio
  /\ 0 <= strlen (filename Sample.audio) < 1024
  /\ created Sample.audio = real_time (Sample.world0 [send_accepts 1])
                                      (clock_reads
                                         (Sample.world0 [send_accepts 1]))
  /\ sock_open (conn (snd (@janus_recorder_create Sample.host
                             globals_at_start (Some "/tmp"%string)
                             (Some "opus"%string) (Some "test1"%string)
                             (Sample.world0 [send_accepts 1])))) = true.
Proof.
  apply (@create_leaves_fresh_recorder Sample.host globals_at_start
           (Some "/tmp"%string) (Some "opus"%string) (Some "test1"%string)
           (Sample.world0 [send_accepts 1]) Sample.audio).
  vm_compute. reflexivity.
Defined.

(** X9: with no [filename], [janus_recorder_create] ignores [dir]: the
    call does what it does with a NULL [dir], the recorder has no
    directory, and its name is made of a random number and the
    extension [.mjr], followed by the temporary extension when one is in
    use. *)
Theorem create_without_filename_ignores_dir `{Host} (g : globals)
    (d cname : option string) (w : world)
    (rc : janus_recorder) (w' : world) :
  janus_recorder_create g d cname None w = (Returns (Some rc), w') ->
  janus_recorder_create g None cname None w = (Returns (Some rc), w') /\
  dir rc = None /\
  exists suffix,
    filename rc =
      g_snprintf 1024 ("janus-recording-" ++ decimal_u32 (random_uint32 w)
                       ++ suffix) /\
    (if rec_tempname g
     then exists ext, rec_tempext g = string_at ext /\
                      suffix = (".mjr." ++ ext)%string
     else suffix = ".mjr"%string).
Proof.
  intro E. split; [exact E|].
  destruct (create_success g d cname None w rc w' E)
    as (_ & _ & (_ & _ & Hd & Hn) & _).
  split; [exact Hd|].
  cbn [resolve_names snd] in Hn. unfold recording_name in Hn.
  destruct (rec_tempname g); cbn [negb] in Hn.
  - destruct (rec_tempext g) as [|ext|]; [discriminate| |discriminate].
    injection Hn as <-. exists (".mjr." ++ ext)%string.
    split; [f_equal; cbn; reflexivity|].
    exists ext. split; reflexivity.
  - injection Hn as <-. exists ".mjr"%string.
    split; [f_equal; cbn; reflexivity | reflexivity].
Qed.

Lemma create_without_filename_ignores_dir_witness :
  let w := Sample.world0 [] in
  exists rc w',
    @janus_recorder_create Sample.host Sample.temp_policy None
      (Some "opus"%string) None w = (Returns (Some rc), w') /\
    dir rc = None /\
    exists suffix,
      filename rc =
        g_snprintf 1024 ("janus-recording-" ++ decimal_u32 (random_uint32 w)
                         ++ suffix) /\
      (if rec_tempname Sample.temp_policy
       then exists ext, rec_tempext Sample.temp_policy = string_at ext /\
                        suffix = (".mjr." ++ ext)%string
       else suffix = ".mjr"%string).
Proof.
  intro w.
  destruct (@janus_recorder_create Sample.host Sample.temp_policy
              (Some "/srv/recordings"%string) (Some "opus"%string) None w)
    as [[[rc|]| |] w'] eqn:E; try (vm_compute in E; discriminate).
  exists rc, w'.
  apply (@create_without_filename_ignores_dir Sample.host Sample.temp_policy
           (Some "/srv/recordings"%string) (Some "opus"%string) w rc w').
  exact E.
Defined.

(** X10: a recorder created on descriptor 0 or 1 records nothing: every
    call of [janus_recorder_save_frame] with a payload returns -3, sends
    nothing and leaves the recorder as it is. *)
Theorem low_descriptor_saves_nothing `{Host} (g : globals)
    (d cname name : option string) (w : world)
    (rc : janus_recorder) (w' : world)
    (buffer : list byte) (length : Z) (later : world) :
  janus_recorder_create g d cname name w = (Returns (Some rc), w') ->
  socket_fd w < 2 -> 1 <= length ->
  janus_recorder_save_frame (Some rc) (Some buffer) length later =
    (Returns (-3), Some rc, later).
Proof.
  intros E Hfd Hl.
  destruct (create_success g d cname name w rc w' E)
    as ((_ & _ & Hm & _) & (Ht & _) & _).
  unfold janus_recorder_save_frame. rewrite Hm.
  destruct (Z.ltb_spec length 1) as [Hlt|_]; [lia|].
  cbn [tcpsock set_mutex].
  destruct (Z.ltb_spec (tcpsock rc) 2) as [_|Hge]; [|lia].
  destruct rc. cbn in Hm. subst. reflexivity.
Qed.

Lemma low_descriptor_saves_nothing_witness :
  let w := Scenario.on_descriptor 1 [] in
  exists rc w',
    @janus_recorder_create Sample.host globals_at_start None
      (Some "opus"%string) (Some "/tmp/a"%string) w
      = (Returns (Some rc), w') /\
    @janus_recorder_save_frame Sample.host (Some rc) (Some [x41; x42]) 2 w'
      = (Returns (-3), Some rc, w').
Proof.
  intro w.
  destruct (@janus_recorder_create Sample.host globals_at_start None
              (Some "opus"%string) (Some "/tmp/a"%string) w)
    as [[[rc|]| |] w'] eqn:E; try (vm_compute in E; discriminate).
  exists rc, w'. split; [reflexivity|].
  apply (@low_descriptor_saves_nothing Sample.host globals_at_start None
           (Some "opus"%string) (Some "/tmp/a"%string) w rc w'
           [x41; x42] 2 w' E); [vm_compute; reflexivity | lia].
Defined.

(** ** Frame calls in any world *)

Lemma advanced_start (w : world) : advanced w w 0 false.
Proof.
  exists [], (pending (conn w)).
  destruct w as [[o wi p c] f hf sf co rt cr ru]. cbn.
  now rewrite app_nil_r, Bool.andb_true_r, !Nat.add_0_r.
Qed.

Lemma advanced_sent (w0 w1 w2 : world) (t : nat) :
  advanced w0 w1 t false -> only_sent w1 w2 -> advanced w0 w2 t false.
Proof.
  intros (e1 & r1 & ->) (e2 & r2 & ->).
  exists (e1 ++ e2), r2. unfold set_conn. cbn. now rewrite app_assoc.
Qed.

Lemma advanced_tick (w0 w1 : world) (t : nat) :
  advanced w0 w1 t false ->
  advanced w0 (snd (janus_get_real_time w1)) (S t) false.
Proof.
  intros (e1 & r1 & ->). exists e1, r1.
  unfold janus_get_real_time. cbn. now rewrite Nat.add_succ_r.
Qed.

Lemma advanced_ticked (w0 w1 : world) (t n : nat) :
  advanced w0 w1 t false -> advanced w0 (ticked w1 n) (n + t) false.
Proof.
  intros (e1 & r1 & ->). exists e1, r1.
  unfold ticked. cbn. f_equal. lia.
Qed.

Lemma advanced_close (w0 w1 : world) (t : nat) :
  advanced w0 w1 t false -> advanced w0 (sys_close w1) t true.
Proof.
  intros (e1 & r1 & ->). exists e1, r1.
  unfold sys_close, set_conn. cbn.
  now rewrite Bool.andb_false_r, Nat.add_0_r, Nat.add_1_r.
Qed.

Lemma set_mutex_back (rc : janus_recorder) :
  mutex rc = false -> set_mutex (set_mutex rc true) false = rc.
Proof. destruct rc. cbn. now intros ->. Qed.

Ltac effect_done :=
  repeat split; try lia; try reflexivity; try assumption;
  try (now apply advanced_close);
  try (apply advanced_close, advanced_start);
  try apply advanced_start;
  try (now left); try (now right);
  try (right; left; repeat split; (now left) || (now right));
  try (right; right; left; repeat split; reflexivity);
  try (right; right; right; split; reflexivity).

Section FramesAnywhere.
Context `{Host}.

Lemma save_frame_record_effect (rc : janus_recorder) (buffer : list byte)
    (length : Z) (w0 w : world) (t : nat) :
  advanced w0 w t false ->
  exists o rc' w' t' closed,
    save_frame_record rc buffer length w = (o, rc', w') /\
    advanced w0 w' t' closed /\ (t <= t' <= 2 + t)%nat /\
    (rc' = rc \/ rc' = set_mutex rc false) /\
    match o with
    | Returns r =>
        (r = 0 /\ closed = false /\ rc' = set_mutex rc false) \/
        (r = -5 /\ closed = true)
    | Blocked => False
    | Fault => closed = false
    end.
Proof.
  intro A0. unfold save_frame_record.
  pose proof (send_tcp_content_only_sent w (bytes_of frame_header)
                (strlen frame_header)) as S1.
  destruct (send_tcp_content w _ _) as [r1 w1]. cbn [snd] in S1.
  pose proof (advanced_sent _ _ _ _ A0 S1) as A1.
  destruct (r1 <? 0).
  { exists (Returns (-5)), rc, (sys_close w1), t, true.
    effect_done. }
  match goal with
  | |- context [send_tcp_content w1 ?b 2] =>
      pose proof (send_tcp_content_only_sent w1 b 2) as S2;
      destruct (send_tcp_content w1 b 2) as [r2 w2]
  end.
  cbn [snd] in S2.
  pose proof (advanced_sent _ _ _ _ A1 S2) as A2.
  destruct (r2 <? 0).
  { exists (Returns (-5)), rc, (sys_close w2), t, true.
    effect_done. }
  assert (exists stamp w3 t3,
            match type rc with
            | JANUS_RECORDER_DATA =>
                let '(now, w) := htonll_real_time w2 in
                let '(r, w) := send_tcp_content w (stored 8 now) 8 in
                (r, w)
            | _ => (0, w2)
            end = (stamp, w3) /\
            advanced w0 w3 t3 false /\ (t <= t3 <= 2 + t)%nat)
    as (stamp & w3 & t3 & -> & A3 & Ht3).
  { destruct (type rc).
    - exists 0, w2, t. effect_done.
    - exists 0, w2, t. effect_done.
    - destruct (htonll_real_time_stamp w2) as (now & -> & _).
      pose proof (advanced_ticked _ _ _ stamp_readings A2) as At.
      pose proof (send_tcp_content_only_sent (ticked w2 stamp_readings)
                    (stored 8 now) 8) as S3.
      destruct (send_tcp_content (ticked w2 stamp_readings) _ _)
        as [r3 w3].
      cbn [snd] in S3.
      exists r3, w3, (stamp_readings + t)%nat.
      split; [reflexivity|].
      split; [eapply advanced_sent; eassumption|].
      unfold stamp_readings. destruct little_endian; lia. }
  destruct (stamp <? 0).
  { exists (Returns (-5)), rc, (sys_close w3), t3, true.
    effect_done. }
  cbv zeta.
  destruct (Z.of_nat (List.length buffer) <? to_size_t (to_int length)).
  { exists Fault, rc, w3, t3, false.
    effect_done. }
  pose proof (send_tcp_content_only_sent w3 buffer
                (to_size_t (to_int length))) as S4.
  destruct (send_tcp_content w3 _ _) as [r4 w4]. cbn [snd] in S4.
  pose proof (advanced_sent _ _ _ _ A3 S4) as A4.
  destruct (r4 <? 0).
  - exists (Returns (-5)), (set_mutex rc false), (sys_close w4), t3, true.
    effect_done.
  - exists (Returns 0), (set_mutex rc false), w4, t3, false.
    effect_done.
Qed.

Ltac effect_parts adv :=
  split; [reflexivity|]; split; [adv|]; split; [lia|];
  split; [repeat split|]; split; [now left|].

Lemma save_frame_effect (rc : janus_recorder) (buffer : option (list byte))
    (length : Z) (w : world) :
  exists o rc' w' t closed,
    janus_recorder_save_frame (Some rc) buffer length w = (o, Some rc', w') /\
    advanced w w' t closed /\ (t <= 3)%nat /\
    same_recording rc rc' /\ (header rc' = header rc \/ header rc' = 1) /\
    match o with
    | Returns r =>
        (r = -2 /\ (buffer = None \/ length < 1) /\ w' = w /\ rc' = rc) \/
        ((buffer <> None /\ 1 <= length) /\
         ((r = -3 /\ tcpsock rc < 2 /\ w' = w /\ rc' = rc) \/
          (2 <= tcpsock rc /\
           ((r = -4 /\ writable rc = 0 /\ w' = sys_close w /\ rc' = rc) \/
            (writable rc <> 0 /\
             ((r = 0 /\ closed = false /\ mutex rc' = false) \/
              (r = -5 /\ closed = true)))))))
    | Blocked => mutex rc = true /\ w' = w /\ rc' = rc
    | Fault => closed = false
    end.
Proof.
  unfold janus_recorder_save_frame.
  destruct (mutex rc) eqn:Hm.
  { exists Blocked, rc, w, 0%nat, false.
    effect_parts ltac:(apply advanced_start). repeat split. }
  pose proof (set_mutex_back rc Hm) as Hback.
  destruct (match buffer with None => true | Some _ => length <? 1 end)
    eqn:Hv.
  { exists (Returns (-2)), rc, w, 0%nat, false. rewrite Hback.
    effect_parts ltac:(apply advanced_start).
    left. repeat split.
    destruct buffer; [right; lia | now left]. }
  assert (Hvalid : buffer <> None /\ 1 <= length).
  { destruct buffer; [split; [discriminate | lia] | discriminate]. }
  cbn [tcpsock writable header set_mutex].
  destruct (Z.ltb_spec (tcpsock rc) 2) as [Hfd|Hfd].
  { exists (Returns (-3)), rc, w, 0%nat, false. rewrite Hback.
    effect_parts ltac:(apply advanced_start).
    right. split; [exact Hvalid|]. left. repeat split. exact Hfd. }
  destruct (Z.eqb_spec (writable rc) 0) as [Hw|Hw].
  { exists (Returns (-4)), rc, (sys_close w), 0%nat, true. rewrite Hback.
    effect_parts ltac:(apply advanced_close, advanced_start).
    right. split; [exact Hvalid|]. right. split; [exact Hfd|].
    left. repeat split. exact Hw. }
  assert (Hlater : forall (r : Z) (closed : bool) (rc' : janus_recorder)
                          (w' : world),
             (r = 0 /\ closed = false /\ mutex rc' = false) \/
             (r = -5 /\ closed = true) ->
             (r = -2 /\ (buffer = None \/ length < 1) /\ w' = w /\ rc' = rc)
             \/
             ((buffer <> None /\ 1 <= length) /\
              ((r = -3 /\ tcpsock rc < 2 /\ w' = w /\ rc' = rc) \/
               (2 <= tcpsock rc /\
                ((r = -4 /\ writable rc = 0 /\ w' = sys_close w /\ rc' = rc)
                 \/
                 (writable rc <> 0 /\
                  ((r = 0 /\ closed = false /\ mutex rc' = false) \/
                   (r = -5 /\ closed = true)))))))).
  { intros r closed rc' w' Hr. right. split; [exact Hvalid|]. right.
    split; [exact Hfd|]. right. split; [exact Hw | exact Hr]. }
  destruct (header rc =? 0) eqn:Hh.
  - pose proof (advanced_tick _ _ _ (advanced_start w)) as At.
    destruct (janus_get_real_time w) as [now wt]. cbn [snd] in At.
    destruct (info_block _) as [buf|].
    + match goal with
      | |- context [send_tcp_content wt buf ?n] =>
          pose proof (send_tcp_content_only_sent wt buf n) as S1;
          destruct (send_tcp_content wt buf n) as [r1 w1]
      end.
      cbn [snd] in S1.
      pose proof (advanced_sent _ _ _ _ At S1) as A1.
      destruct (r1 <? 0).
      * exists (Returns (-5)), (set_mutex rc true), (sys_close w1), 1%nat,
               true.
        effect_parts ltac:(now apply advanced_close).
        apply Hlater. right. split; reflexivity.
      * destruct (save_frame_record_effect
                    (set_header (set_mutex rc true) 1)
                    (match buffer with Some b => b | None => [] end)
                    length w w1 1 A1)
          as (o & rc' & w' & t' & closed & E & A & Ht & Hrc & Ho).
        unfold set_mutex at 1 in E. cbn in E.
        unfold set_mutex at 1. cbn. rewrite E.
        exists o, rc', w', t', closed.
        split; [reflexivity|]. split; [exact A|]. split; [lia|].
        split.
        { destruct Hrc as [->| ->]; destruct rc; repeat split. }
        split.
        { right. destruct Hrc as [->| ->]; reflexivity. }
        destruct o as [r| |]; [|destruct Ho|exact Ho].
        apply Hlater.
        destruct Ho as [(-> & -> & ->)|(-> & ->)].
        -- left. repeat split.
        -- right. split; reflexivity.
    + exists Fault, (set_mutex rc true), wt, 1%nat, false.
      effect_parts ltac:(exact At). reflexivity.
  - destruct (save_frame_record_effect (set_mutex rc true)
                (match buffer with Some b => b | None => [] end)
                length w w 0 (advanced_start w))
      as (o & rc' & w' & t' & closed & E & A & Ht & Hrc & Ho).
    unfold set_mutex at 1 in E. cbn in E.
    unfold set_mutex at 1. cbn. rewrite E.
    exists o, rc', w', t', closed.
    split; [reflexivity|]. split; [exact A|]. split; [lia|].
    split.
    { destruct Hrc as [->| ->]; destruct rc; repeat split. }
    split.
    { left. destruct Hrc as [->| ->]; reflexivity. }
    destruct o as [r| |]; [|destruct Ho|exact Ho].
    apply Hlater.
    destruct Ho as [(-> & -> & ->)|(-> & ->)].
    + left. repeat split.
    + right. split; reflexivity.
Qed.

End FramesAnywhere.

(** X11: whatever its arguments and whatever the connection does, a call
    of [janus_recorder_save_frame] only adds bytes to what the peer has
    received, closes the descriptor at most once, reads the clock at most
    three times (once for the info header and, through the [htonll]
    macro, up to twice for the timestamp of a data frame) and leaves the
    file system alone; of the recorder it changes nothing but the mutex
    and the [header] flag, which it can only set. *)
Theorem save_frame_touches_only_the_stream `{Host} (rc : janus_recorder)
    (buffer : option (list byte)) (length : Z) (w : world) :
  exists o rc' w',
    janus_recorder_save_frame (Some rc) buffer length w = (o, Some rc', w') /\
    same_recording rc rc' /\
    (header rc' = header rc \/ header rc' = 1) /\
    (exists extra, wire (conn w') = wire (conn w) ++ extra) /\
    fs w' = fs w /\
    (closes (conn w) <= closes (conn w') <= S (closes (conn w)))%nat /\
    (clock_reads w <= clock_reads w' <= 3 + clock_reads w)%nat.
Proof.
  destruct (save_frame_effect rc buffer length w)
    as (o & rc' & w' & t & closed & E & (extra & rest & Hw') & Ht & Hs & Hh
        & _).
  exists o, rc', w'. split; [exact E|]. split; [exact Hs|].
  split; [exact Hh|]. rewrite Hw'. cbn.
  split; [now exists extra|]. split; [reflexivity|].
  destruct closed; lia.
Qed.

(** X12: what each value returned by [janus_recorder_save_frame] on a
    recorder means.  -2: the payload is NULL or the length is below 1.
    -3: the payload is given and the descriptor is below 2.  -4: the
    descriptor is 2 or more and the recorder is not writable; the call
    closes the descriptor (again).  In these three cases nothing is sent
    and the recorder is left as it was.  0 and -5: the recorder is
    writable; with 0 the call did not close the descriptor and released
    the mutex, with -5 it closed the descriptor. *)
Theorem save_frame_return_values `{Host} (rc : janus_recorder)
    (buffer : option (list byte)) (length : Z) (w : world)
    (r : Z) (r' : option janus_recorder) (w' : world) :
  janus_recorder_save_frame (Some rc) buffer length w = (Returns r, r', w') ->
  (r = -2 /\ (buffer = None \/ length < 1) /\ w' = w /\ r' = Some rc) \/
  ((buffer <> None /\ 1 <= length) /\
   ((r = -3 /\ tcpsock rc < 2 /\ w' = w /\ r' = Some rc) \/
    (2 <= tcpsock rc /\
     ((r = -4 /\ writable rc = 0 /\ w' = sys_close w /\ r' = Some rc) \/
      (writable rc <> 0 /\
       ((r = 0 /\ sock_open (conn w') = sock_open (conn w) /\
         closes (conn w') = closes (conn w) /\
         exists rc', r' = Some rc' /\ mutex rc' = false) \/
        (r = -5 /\ sock_open (conn w') = false /\
         closes (conn w') = S (closes (conn w))))))))).
Proof.
  intro E.
  destruct (save_frame_effect rc buffer length w)
    as (o & rc' & w1 & t & closed & E1 & (extra & rest & Hw1) & _ & _ & _
        & Ho).
  rewrite E in E1. injection E1 as <- -> <-.
  destruct Ho as [(-> & Hb & -> & ->)|(Hv & Ho)].
  { left. repeat split. exact Hb. }
  right. split; [exact Hv|].
  destruct Ho as [(-> & Hfd & -> & ->)|(Hfd & Ho)].
  { left. repeat split. exact Hfd. }
  right. split; [exact Hfd|].
  destruct Ho as [(-> & Hwr & -> & ->)|(Hwr & Ho)].
  { left. repeat split. exact Hwr. }
  right. split; [exact Hwr|].
  destruct Ho as [(-> & -> & Hm)|(-> & ->)].
  - left. rewrite Hw1. cbn.
    rewrite Bool.andb_true_r, Nat.add_0_r.
    repeat split. exists rc'. split; [reflexivity | exact Hm].
  - right. rewrite Hw1. cbn.
    rewrite Bool.andb_false_r, Nat.add_1_r. repeat split.
Qed.

Lemma save_frame_return_values_witness :
  let rc := Sample.audio_started in
  let buffer := Some [x41; x42; x43] in
  let w := Sample.world0 [] in
  let r := -5 in
  let r' := Some (set_mutex rc true) in
  let w' := sys_close w in
  (r = -2 /\ (buffer = None \/ 3 < 1) /\ w' = w /\ r' = Some rc) \/
  ((buffer <> None /\ 1 <= 3) /\
   ((r = -3 /\ tcpsock rc < 2 /\ w' = w /\ r' = Some rc) \/
    (2 <= tcpsock rc /\
     ((r = -4 /\ writable rc = 0 /\ w' = sys_close w /\ r' = Some rc) \/
      (writable rc <> 0 /\
       ((r = 0 /\ sock_open (conn w') = sock_open (conn w) /\
         closes (conn w') = closes (conn w) /\
         exists rc', r' = Some rc' /\ mutex rc' = false) \/
        (r = -5 /\ sock_open (conn w') = false /\
         closes (conn w') = S (closes (conn w))))))))).
Proof.
  intros rc buffer w r r' w'.
  apply (@save_frame_return_values Sample.host rc buffer 3 w r r' w').
  vm_compute. reflexivity.
Defined.

(** X13: once [janus_recorder_close] has returned 0 on a recorder whose
    descriptor is 2 or more, every later call of
    [janus_recorder_save_frame] with a payload returns -4 and sends
    nothing, and calls [close] on the descriptor once more, although the
    descriptor was closed already. *)
Theorem save_frame_after_close `{Host} (g : globals) (rc rc1 : janus_recorder)
    (w w1 : world) (buffer : list byte) (length : Z) :
  janus_recorder_close g (Some rc) w = (Returns 0, Some rc1, w1) ->
  2 <= tcpsock rc -> 1 <= length ->
  sock_open (conn w1) = false /\
  closes (conn w1) = S (closes (conn w)) /\
  exists w2,
    janus_recorder_save_frame (Some rc1) (Some buffer) length w1 =
      (Returns (-4), Some rc1, w2) /\
    wire (conn w2) = wire (conn w) /\
    closes (conn w2) = S (S (closes (conn w))).
Proof.
  intros E Hfd Hl. unfold janus_recorder_close in E.
  destruct (writable rc =? 1); cbn [negb] in E; [|discriminate].
  cbn [mutex set_writable] in E.
  destruct (mutex rc) eqn:Hm; [discriminate|].
  cbn [tcpsock set_mutex set_writable] in E.
  destruct (Z.ltb_spec 0 (tcpsock rc)) as [_|Hle]; [|lia].
  assert (Hfinal : forall (rc0 : janus_recorder) (w0 : world),
             tcpsock rc0 = tcpsock rc -> writable rc0 = 0 ->
             mutex rc0 = false ->
             sock_open (conn w0) = false ->
             closes (conn w0) = S (closes (conn w)) ->
             wire (conn w0) = wire (conn w) ->
             (Returns 0, Some rc0, w0) = (Returns 0, Some rc1, w1) ->
             sock_open (conn w1) = false /\
             closes (conn w1) = S (closes (conn w)) /\
             exists w2,
               janus_recorder_save_frame (Some rc1) (Some buffer) length w1 =
                 (Returns (-4), Some rc1, w2) /\
               wire (conn w2) = wire (conn w) /\
               closes (conn w2) = S (S (closes (conn w)))).
  { intros rc0 w0 Ht Hwr Hm0 Ho Hc Hwi E0. injection E0 as <- <-.
    split; [exact Ho|]. split; [exact Hc|].
    exists (sys_close w0). unfold janus_recorder_save_frame.
    rewrite Hm0. cbn [tcpsock writable set_mutex]. rewrite Ht, Hwr.
    destruct (Z.ltb_spec length 1); [lia|].
    destruct (Z.ltb_spec (tcpsock rc) 2); [lia|].
    cbn [Z.eqb]. rewrite (set_mutex_back rc0 Hm0).
    cbn. rewrite Hc, Hwi. repeat split. }
  destruct (rec_tempname g).
  - destruct (rec_tempext g) as [|ext|]; [discriminate| |discriminate].
    destruct (1024 <=? _); [discriminate|].
    unfold sys_rename in E. cbv zeta in E.
    destruct (negb _); (eapply Hfinal; [| | | | | |exact E]; reflexivity).
  - eapply Hfinal; [| | | | | |exact E]; reflexivity.
Qed.

Lemma save_frame_after_close_witness :
  let w := Sample.connected [] in
  let w1 := sys_close w in
  sock_open (conn w1) = false /\
  closes (conn w1) = S (closes (conn w)) /\
  exists w2,
    @janus_recorder_save_frame Sample.host (Some Scenario.audio_closed)
      (Some [x41]) 1 w1 = (Returns (-4), Some Scenario.audio_closed, w2) /\
    wire (conn w2) = wire (conn w) /\
    closes (conn w2) = S (S (closes (conn w))).
Proof.
  intros w w1.
  apply (@save_frame_after_close Sample.host globals_at_start Sample.audio
           Scenario.audio_closed w w1 [x41] 1);
    [vm_compute; reflexivity | simpl; lia | lia].
Defined.

(** ** Closing *)

Lemma substring_no_longer (n : nat) (s : string) :
  (String.length (String.substring 0 n s) <= String.length s)%nat.
Proof.
  revert n. induction s as [|c s IH]; intros [|n]; cbn; try lia.
  specialize (IH n). lia.
Qed.

Lemma substring_app_front (n : nat) (a b : string) :
  (n <= String.length a)%nat ->
  String.substring 0 n (a ++ b) = String.substring 0 n a.
Proof.
  revert n. induction a as [|c a IH]; intros [|n] Hn; cbn in *;
    try reflexivity; try lia.
  - now destruct b.
  - f_equal. apply IH. lia.
Qed.

Lemma untagged_name_no_longer (name ext : string) :
  strlen (untagged_name name ext) <= strlen name.
Proof.
  unfold untagged_name, g_snprintf, strlen.
  pose proof (substring_no_longer
                (Z.to_nat (to_size_t (Z.of_nat (String.length name)
                                      - Z.of_nat (String.length ext)) - 1))
                name).
  lia.
Qed.

Lemma untagged_name_cut (name ext : string) :
  strlen ext < 2 ^ 64 -> strlen name < 2 ^ 64 ->
  untagged_name name ext =
    if strlen name <? strlen ext then name
    else String.substring 0 (Z.to_nat (strlen name - strlen ext - 1)) name.
Proof.
  intros He Hn. unfold untagged_name, g_snprintf.
  assert (0 <= strlen name /\ 0 <= strlen ext) as [Hn0 He0]
    by (unfold strlen; lia).
  destruct (Z.ltb_spec (strlen name) (strlen ext)) as [Hlt|Hge].
  - assert (to_size_t (strlen name - strlen ext)
            = 2 ^ 64 + (strlen name - strlen ext)) as ->.
    { unfold to_size_t, wrap_unsigned. symmetry.
      apply Z.mod_unique_pos with (q := -1); lia. }
    apply substring_whole. unfold strlen in *. lia.
  - rewrite to_size_t_small by lia. reflexivity.
Qed.

(** X14: [janus_recorder_close] sends nothing: the peer is told of the end
    of a recording by the closing of the connection alone.  A call that
    returns -1 found the recorder not writable and changed nothing.  A
    call that returns 0 closed the descriptor once when it is above 0 and
    left it open when it is 0, asked for one renaming under the
    temporary-name policy and for none otherwise, and left the recorder
    not writable, its mutex free, its [header] flag and its descriptor as
    they were. *)
Theorem close_sends_nothing (g : globals) (rc : janus_recorder) (w : world)
    (r : Z) (r' : option janus_recorder) (w' : world) :
  janus_recorder_close g (Some rc) w = (Returns r, r', w') ->
  wire (conn w') = wire (conn w) /\
  pending (conn w') = pending (conn w) /\
  clock_reads w' = clock_reads w /\
  ((r = -1 /\ writable rc <> 1 /\ w' = w /\ r' = Some rc) \/
   (r = 0 /\ writable rc = 1 /\
    closes (conn w') =
      (if 0 <? tcpsock rc then S (closes (conn w)) else closes (conn w)) /\
    sock_open (conn w') =
      (if 0 <? tcpsock rc then false else sock_open (conn w)) /\
    List.length (renames (fs w')) =
      (if rec_tempname g then S (List.length (renames (fs w)))
       else List.length (renames (fs w))) /\
    exists rc', r' = Some rc' /\ writable rc' = 0 /\ mutex rc' = false /\
                header rc' = header rc /\ tcpsock rc' = tcpsock rc /\
                dir rc' = dir rc /\ destroyed rc' = destroyed rc)).
Proof.
  intro E. unfold janus_recorder_close in E.
  destruct (Z.eqb_spec (writable rc) 1) as [Hw|Hw]; cbn [negb] in E.
  2:{ injection E as <- <- <-. repeat split. left. repeat split. exact Hw. }
  cbn [mutex set_writable] in E.
  destruct (mutex rc) eqn:Hm; [discriminate|].
  cbn [tcpsock set_mutex set_writable] in E.
  assert (Hclose :
            let w1 := if 0 <? tcpsock rc then sys_close w else w in
            wire (conn w1) = wire (conn w) /\
            pending (conn w1) = pending (conn w) /\
            clock_reads w1 = clock_reads w /\
            fs w1 = fs w /\
            closes (conn w1) =
              (if 0 <? tcpsock rc then S (closes (conn w))
               else closes (conn w)) /\
            sock_open (conn w1) =
              (if 0 <? tcpsock rc then false else sock_open (conn w))).
  { destruct (0 <? tcpsock rc); cbn; repeat split. }
  cbv zeta in Hclose.
  destruct (if 0 <? tcpsock rc then sys_close w else w) as [c1 f1 a b cc d e0 f]
    eqn:Ew1.
  destruct Hclose as (Hwi & Hp & Hcl & Hfs & Hc & Ho).
  cbn in Hwi, Hp, Hcl, Hfs, Hc, Ho.
  destruct (rec_tempname g).
  - destruct (rec_tempext g) as [|ext|]; [discriminate| |discriminate].
    destruct (1024 <=? _); [discriminate|].
    unfold sys_rename in E. cbv zeta in E. cbn in E.
    destruct (negb _); injection E as <- <- <-; cbn;
      (split; [exact Hwi|]; split; [exact Hp|]; split; [exact Hcl|];
       right; split; [reflexivity|]; split; [exact Hw|];
       split; [exact Hc|]; split; [exact Ho|];
       split; [rewrite Hfs, length_app; cbn; lia|];
       eexists; split; [reflexivity|]; repeat split).
  - injection E as <- <- <-; cbn.
    split; [exact Hwi|]. split; [exact Hp|]. split; [exact Hcl|].
    right. split; [reflexivity|]. split; [exact Hw|].
    split; [exact Hc|]. split; [exact Ho|].
    split; [now rewrite Hfs|].
    eexists; split; [reflexivity|]; repeat split.
Qed.

Lemma close_sends_nothing_witness :
  let w := Sample.connected [] in
  let w' := snd (janus_recorder_close Sample.temp_policy
                   (Some Sample.tagged) w) in
  let r' := snd (fst (janus_recorder_close Sample.temp_policy
                        (Some Sample.tagged) w)) in
  wire (conn w') = wire (conn w) /\
  pending (conn w') = pending (conn w) /\
  clock_reads w' = clock_reads w /\
  ((0 = -1 /\ writable Sample.tagged <> 1 /\ w' = w /\
    r' = Some Sample.tagged) \/
   (0 = 0 /\ writable Sample.tagged = 1 /\
    closes (conn w') =
      (if 0 <? tcpsock Sample.tagged then S (closes (conn w))
       else closes (conn w)) /\
    sock_open (conn w') =
      (if 0 <? tcpsock Sample.tagged then false else sock_open (conn w)) /\
    List.length (renames (fs w')) =
      (if rec_tempname Sample.temp_policy
       then S (List.length (renames (fs w)))
       else List.length (renames (fs w))) /\
    exists rc', r' = Some rc' /\ writable rc' = 0 /\ mutex rc' = false /\
                header rc' = header Sample.tagged /\
                tcpsock rc' = tcpsock Sample.tagged /\
                dir rc' = dir Sample.tagged /\
                destroyed rc' = destroyed Sample.tagged)).
Proof.
  intros w w' r'.
  apply (close_sends_nothing Sample.temp_policy Sample.tagged w 0 r' w').
  vm_compute. reflexivity.
Defined.

(** X15: under the temporary-name policy [janus_recorder_close] cuts the
    name by length alone, without looking at how it ends: a name that is
    not shorter than the extension loses as many characters as the
    extension has and one more (all of them, when that is more than it
    has), and a name shorter than the extension is kept whole, so that the
    file is renamed to itself. *)
Theorem close_cuts_name_by_length (g : globals) (rc : janus_recorder)
    (w : world) (ext : string) :
  rec_tempname g = true -> rec_tempext g = string_at ext ->
  strlen ext < 2 ^ 64 -> strlen (filename rc) < 1024 ->
  writable rc = 1 -> mutex rc = false ->
  let n := strlen (filename rc) in
  let cut :=
    if n <? strlen ext then filename rc
    else String.substring 0 (Z.to_nat (n - strlen ext - 1)) (filename rc) in
  let oldpath := path_in (dir rc) (filename rc) in
  let newpath := path_in (dir rc) cut in
  exists rc' w',
    janus_recorder_close g (Some rc) w = (Returns 0, Some rc', w') /\
    renames (fs w') = renames (fs w) ++ [(oldpath, newpath)] /\
    filename rc' = (if rename_ok (fs w) oldpath newpath
                    then cut else filename rc).
Proof.
  intros Ht He Hext Hn Hw Hm n cut oldpath newpath.
  assert (Hcut : untagged_name (filename rc) ext = cut).
  { apply untagged_name_cut; [exact Hext | lia]. }
  pose proof (untagged_name_no_longer (filename rc) ext) as Hshort.
  unfold janus_recorder_close.
  rewrite Hw, Ht, He. cbn [Z.eqb Pos.eqb negb mutex set_writable].
  rewrite Hm. cbn [filename dir set_mutex set_writable tcpsock].
  rewrite Hcut in *.
  destruct (Z.leb_spec 1024 (strlen cut)) as [Hbig|_]; [lia|].
  fold oldpath newpath. unfold sys_rename. cbv zeta.
  assert (Hfs : fs (if 0 <? tcpsock rc then sys_close w else w) = fs w)
    by (destruct (0 <? tcpsock rc); reflexivity).
  rewrite Hfs.
  destruct (rename_ok (fs w) oldpath newpath); cbn [Z.eqb negb];
    eexists _, _; (split; [reflexivity|]); cbn; split; reflexivity.
Qed.

Lemma close_cuts_name_by_length_witness :
  let rc := Scenario.short_named in
  let w := Sample.renaming (Sample.connected []) in
  exists rc' w',
    janus_recorder_close Sample.temp_policy (Some rc) w
      = (Returns 0, Some rc', w') /\
    renames (fs w') = renames (fs w) ++ [("ab"%string, "ab"%string)] /\
    filename rc' = "ab"%string.
Proof.
  intros rc w.
  apply (close_cuts_name_by_length Sample.temp_policy rc w "tmp");
    try reflexivity; vm_compute; reflexivity.
Defined.

(** ** The naming policy *)

Lemma policy_fault_stays (calls : list policy_call) :
  fold_left policy_step calls Fault = Fault.
Proof. induction calls as [|c calls IH]; [reflexivity | exact IH]. Qed.

Lemma policy_keeps_extension (calls : list policy_call) :
  forall g0 g : globals,
    (rec_tempname g0 = true -> exists ext, rec_tempext g0 = string_at ext) ->
    fold_left policy_step calls (Returns g0) = Returns g ->
    rec_tempname g = true ->
    exists ext, rec_tempext g = string_at ext.
Proof.
  induction calls as [|c calls IH]; intros g0 g Hg E Hname;
    cbn [fold_left] in E.
  - injection E as <-. exact (Hg Hname).
  - destruct c as [tempnames extension|]; cbn [policy_step] in E.
    + eapply IH; [|exact E|exact Hname].
      destruct tempnames; [|exact Hg].
      destruct extension as [e|]; cbn; eauto.
    + unfold janus_recorder_deinit in E.
      destruct (rec_tempext g0).
      * eapply IH; [|exact E|exact Hname]. cbn. discriminate.
      * eapply IH; [|exact E|exact Hname]. cbn. discriminate.
      * rewrite policy_fault_stays in E. discriminate.
Qed.

Lemma policy_after_extension (calls : list policy_call) (g : globals) :
  policy_after calls = Returns g ->
  rec_tempname g = true ->
  exists ext, rec_tempext g = string_at ext.
Proof.
  apply policy_keeps_extension. cbn. discriminate.
Qed.

(** X16: let calls of [janus_recorder_init] and [janus_recorder_deinit]
    be made since the process started, none of them releasing the
    extension a second time, and let [g] be the naming policy they leave.
    Then [janus_recorder_close] of a recorder whose name has fewer than
    1024 characters reads no NULL or released extension and writes within
    [newname]: the call returns, or waits for the mutex when the recorder
    is writable and the mutex is held. *)
Theorem close_defined_under_policy (calls : list policy_call) (g : globals)
    (rc : janus_recorder) (w : world) :
  policy_after calls = Returns g ->
  strlen (filename rc) < 1024 ->
  exists o r' w',
    janus_recorder_close g (Some rc) w = (o, r', w') /\
    o <> Fault /\
    (o = Blocked <-> (writable rc = 1 /\ mutex rc = true)).
Proof.
  intros Hg Hn. pose proof (policy_after_extension calls g Hg) as Hext.
  unfold janus_recorder_close.
  destruct (Z.eqb_spec (writable rc) 1) as [Hw|Hw]; cbn [negb].
  2:{ eexists _, _, _. split; [reflexivity|]. split; [discriminate|].
      split; [discriminate | intros [Hw' _]; contradiction]. }
  cbn [mutex set_writable].
  destruct (mutex rc) eqn:Hm.
  { eexists _, _, _. split; [reflexivity|]. split; [discriminate|].
    split; [now intros _ | reflexivity]. }
  cbn [filename dir set_mutex set_writable tcpsock].
  destruct (rec_tempname g).
  - destruct (Hext eq_refl) as [ext ->].
    pose proof (untagged_name_no_longer (filename rc) ext) as Hshort.
    destruct (Z.leb_spec 1024 (strlen (untagged_name (filename rc) ext)))
      as [Hbig|_]; [lia|].
    unfold sys_rename. cbv zeta.
    destruct (negb _); eexists _, _, _;
      (split; [reflexivity|]; split; [discriminate|];
       split; [discriminate | intros [_ Hm']; discriminate]).
  - eexists _, _, _. split; [reflexivity|]. split; [discriminate|].
    split; [discriminate | intros [_ Hm']; discriminate].
Qed.

Lemma close_defined_under_policy_witness :
  exists o r' w',
    janus_recorder_close (mkGlobals true (string_at "tmp"))
      (Some Sample.tagged) (Sample.connected []) = (o, r', w') /\
    o <> Fault /\
    (o = Blocked <->
     (writable Sample.tagged = 1 /\ mutex Sample.tagged = true)).
Proof.
  apply (close_defined_under_policy
           [call_init true (Some "part"%string); call_deinit;
            call_init true None; call_init false None]
           (mkGlobals true (string_at "tmp"))
           Sample.tagged (Sample.connected []));
    [reflexivity | vm_compute; reflexivity].
Defined.

Section CreationDefined.
Context `{Host}.

Lemma send_message_defined (w : world) (text : string) :
  1027 <= RCBUFSIZ -> strlen text < 1024 ->
  exists r w', send_message w text = Some (r, w').
Proof.
  intros Hcap Hn. unfold send_message, staged.
  rewrite length_app, length_stored, length_bytes_of.
  unfold strlen in Hn.
  destruct (Z.ltb_spec RCBUFSIZ
              (Z.of_nat (4 + String.length text))) as [Hlt|_]; [lia|].
  destruct (send_tcp_content w _ _) as [r w']. now exists r, w'.
Qed.

End CreationDefined.

(** X17: let calls of [janus_recorder_init] and [janus_recorder_deinit]
    be made since the process started, none of them releasing the
    extension a second time, and let [g] be the naming policy they leave.
    Then, whatever its arguments and whatever the answers of the world,
    [janus_recorder_create] has no undefined behaviour when the buffer of
    a recorder holds 1027 bytes or more: it reads no NULL or released
    extension, the name it makes has fewer than 1024 characters, and the
    name and its length fit the buffer. *)
Theorem create_defined_under_policy `{Host} (calls : list policy_call)
    (g : globals) (d cname name : option string) (w : world) :
  policy_after calls = Returns g ->
  1027 <= RCBUFSIZ ->
  fst (janus_recorder_create g d cname name w) <> Fault.
Proof.
  intros Hg Hcap. pose proof (policy_after_extension calls g Hg) as Hext.
  unfold janus_recorder_create.
  destruct cname as [codec|]; [|discriminate].
  destruct (codec_medium codec); [|discriminate].
  unfold janus_get_real_time.
  destruct (resolve_names d name) as [rec_dir rec_file].
  destruct (negb (directory_ready _ rec_dir)); [discriminate|].
  destruct (recording_name g rec_file _) as [newname|] eqn:Hname.
  2:{ exfalso. unfold recording_name in Hname.
      destruct (rec_tempname g); cbn [negb] in Hname; [|discriminate].
      destruct (Hext eq_refl) as [ext Hsome]. rewrite Hsome in Hname.
      discriminate. }
  apply recording_name_length in Hname.
  destruct (negb (host_found _)); [discriminate|].
  destruct (socket_fd _ <? 0); [discriminate|].
  destruct (sys_connect _) as [c w1].
  destruct (c <? 0); [discriminate|].
  destruct (send_message_defined w1 newname Hcap) as (r1 & w2 & ->);
    [lia|].
  destruct (r1 <? 0); [discriminate|].
  destruct (send_message_defined w2 header_tag Hcap) as (r2 & w3 & ->);
    [vm_compute; reflexivity|].
  destruct (r2 <? 0); discriminate.
Qed.

Lemma create_defined_under_policy_witness :
  fst (@janus_recorder_create Sample.host (mkGlobals false freed_string)
         (Some "/tmp"%string) (Some "vp8"%string) (Some "room"%string)
         (Sample.world0 [send_accepts 3; send_error])) <> Fault.
Proof.
  apply (@create_defined_under_policy Sample.host
           [call_init true None; call_deinit]
           (mkGlobals false freed_string));
    [reflexivity | vm_compute; discriminate].
Defined.

Lemma substring_length_exact (n : nat) (s : string) :
  (n <= String.length s)%nat ->
  String.length (String.substring 0 n s) = n.
Proof.
  revert n. induction s as [|c s IH]; intros [|n] Hn; cbn in *;
    try reflexivity; try lia.
  f_equal. apply IH. lia.
Qed.

(** X18: a [filename] of 1023 characters or more is cut to its first 1023
    characters: the recording gets neither the extension [.mjr] nor the
    temporary extension, whatever the naming policy is. *)
Theorem create_truncates_long_name `{Host} (g : globals)
    (d f : string) (cname : option string) (w : world)
    (rc : janus_recorder) (w' : world) :
  janus_recorder_create g (Some d) cname (Some f) w
    = (Returns (Some rc), w') ->
  1023 <= strlen f ->
  filename rc = String.substring 0 1023 f /\ strlen (filename rc) = 1023.
Proof.
  intros E Hf.
  destruct (create_success g (Some d) cname (Some f) w rc w' E)
    as (_ & _ & (_ & _ & _ & Hn) & _).
  cbn [resolve_names snd] in Hn. unfold recording_name, g_snprintf in Hn.
  change (Z.to_nat (1024 - 1)) with 1023%nat in Hn.
  unfold strlen in *.
  assert (Hcut : forall suffix : string,
             String.substring 0 1023 (f ++ suffix)
             = String.substring 0 1023 f)
    by (intro suffix; apply substring_app_front; lia).
  assert (Hname : filename rc = String.substring 0 1023 f).
  { destruct (rec_tempname g); cbn [negb] in Hn.
    - destruct (rec_tempext g) as [|ext|]; [discriminate| |discriminate].
      injection Hn as <-. apply Hcut.
    - injection Hn as <-. apply Hcut. }
  split; [exact Hname|].
  rewrite Hname, substring_length_exact by lia. reflexivity.
Qed.

Lemma create_truncates_long_name_witness :
  exists rc w',
    @janus_recorder_create Sample.host Sample.temp_policy
      (Some "/tmp"%string) (Some "opus"%string) (Some Scenario.long_name)
      (Sample.world0 []) = (Returns (Some rc), w') /\
    filename rc = String.substring 0 1023 Scenario.long_name /\
    strlen (filename rc) = 1023.
Proof.
  destruct (@janus_recorder_create Sample.host Sample.temp_policy
              (Some "/tmp"%string) (Some "opus"%string)
              (Some Scenario.long_name) (Sample.world0 []))
    as [[[rc|]| |] w'] eqn:E; try (vm_compute in E; discriminate).
  exists rc, w'. split; [reflexivity|].
  apply (@create_truncates_long_name Sample.host Sample.temp_policy
           "/tmp" Scenario.long_name (Some "opus"%string)
           (Sample.world0 []) rc w' E).
  vm_compute. discriminate.
Defined.

(** ** Releasing a recorder *)

Lemma close_ignores_destroyed (g : globals) (rc : janus_recorder) (v : Z)
                              (w : world) :
  janus_recorder_close g (Some (set_destroyed rc v)) w =
    let '(o, r, w') := janus_recorder_close g (Some rc) w in
    (o, option_map (fun rc' => set_destroyed rc' v) r, w').
Proof.
  unfold janus_recorder_close.
  cbn [writable mutex tcpsock filename dir set_destroyed set_writable
       set_mutex].
  destruct (negb (writable rc =? 1)); [reflexivity|].
  destruct (mutex rc); [reflexivity|].
  destruct (rec_tempname g); [|reflexivity].
  destruct (rec_tempext g) as [|ext|]; [reflexivity | | reflexivity].
  destruct (1024 <=? _); [reflexivity|].
  destruct (sys_rename _ _ _) as [r w1].
  destruct (negb (r =? 0)); reflexivity.
Qed.

(** X19: while others hold the recorder, [janus_recorder_destroy] gives
    up one reference and marks the recorder destroyed without closing it,
    and a second call on the same recorder does nothing: two calls release
    exactly one reference. *)
Theorem destroy_twice_releases_once (g : globals) (c : counted) (w : world) :
  destroyed (object c) = 0 -> references c <> 1 ->
  exists c',
    janus_recorder_destroy g (Some (Live c)) w
      = (Returns tt, Some (Live c'), w) /\
    references c' = references c - 1 /\
    destroyed (object c') = 1 /\
    writable (object c') = writable (object c) /\
    janus_recorder_destroy g (Some (Live c')) w
      = (Returns tt, Some (Live c'), w).
Proof.
  intros Hd Hr.
  exists (mkCounted (set_destroyed (object c) 1) (references c - 1)).
  unfold janus_recorder_destroy. rewrite Hd. cbn [Z.eqb negb].
  destruct (Z.eqb_spec (references c - 1) 0) as [H0|_]; [lia|].
  cbn. repeat split.
Qed.

Lemma destroy_twice_releases_once_witness :
  exists c',
    janus_recorder_destroy Sample.temp_policy
      (Some (Live (mkCounted Sample.tagged 2))) (Sample.connected [])
      = (Returns tt, Some (Live c'), Sample.connected []) /\
    references c' = 2 - 1 /\
    destroyed (object c') = 1 /\
    writable (object c') = writable Sample.tagged /\
    janus_recorder_destroy Sample.temp_policy (Some (Live c'))
      (Sample.connected [])
      = (Returns tt, Some (Live c'), Sample.connected []).
Proof.
  apply (destroy_twice_releases_once Sample.temp_policy
           (mkCounted Sample.tagged 2) (Sample.connected []));
    [reflexivity | cbn; lia].
Defined.

(** X20: [janus_recorder_destroy] on the last reference does to the world
    what [janus_recorder_close] does, when that call returns, and then
    frees the recorder; on a recorder that was closed before, the world
    stays as it is: the descriptor is not closed and the file is not
    renamed a second time. *)
Theorem destroy_last_reference (g : globals) (c : counted) (w : world)
    (r : Z) (r' : option janus_recorder) (w' : world) :
  references c = 1 -> destroyed (object c) = 0 ->
  janus_recorder_close g (Some (object c)) w = (Returns r, r', w') ->
  janus_recorder_destroy g (Some (Live c)) w
    = (Returns tt, Some Freed, w') /\
  (writable (object c) <> 1 -> w' = w).
Proof.
  intros Hr Hd E. split.
  - unfold janus_recorder_destroy, janus_recorder_free.
    rewrite Hd, Hr. cbn [Z.eqb negb Z.sub Z.pos_sub Z.add object].
    rewrite close_ignores_destroyed, E. reflexivity.
  - intro Hw. unfold janus_recorder_close in E.
    destruct (Z.eqb_spec (writable (object c)) 1) as [H1|_];
      [contradiction|].
    cbn [negb] in E. now injection E as _ _ <-.
Qed.

Lemma destroy_last_reference_witness :
  let c := counted_new Scenario.audio_closed in
  let w := sys_close (Sample.connected []) in
  janus_recorder_destroy Sample.temp_policy (Some (Live c)) w
    = (Returns tt, Some Freed, w) /\
  (writable (object c) <> 1 -> w = w).
Proof.
  intros c w.
  apply (destroy_last_reference Sample.temp_policy c w (-1)
           (Some Scenario.audio_closed) w); reflexivity.
Defined.

(** ** When a frame is saved *)

Section FrameSaved.
Context `{Host}.

Lemma save_frame_returns_zero (rc : janus_recorder) (b : list byte)
    (length : Z) (w : world) :
  healthy w = true -> mutex rc = false -> writable rc <> 0 ->
  2 <= tcpsock rc -> 1 <= length < 2 ^ 31 ->
  length <= Z.of_nat (List.length b) ->
  BUFSIZ <= RCBUFSIZ < 2 ^ 31 ->
  (header rc = 0 ->
   2 + strlen (info_text rc (real_time w (clock_reads w))) <= RCBUFSIZ) ->
  exists r' w',
    janus_recorder_save_frame (Some rc) (Some b) length w
      = (Returns 0, r', w').
Proof.
  intros Hw Hm Hwr Hfd Hlen Hfit Hcap Hinfo.
  unfold janus_recorder_save_frame. rewrite Hm.
  destruct (Z.ltb_spec length 1) as [|_]; [lia|].
  cbn [tcpsock writable header set_mutex].
  destruct (Z.ltb_spec (tcpsock rc) 2) as [|_]; [lia|].
  destruct (Z.eqb_spec (writable rc) 0) as [|_]; [contradiction|].
  assert (Hrecord : forall (rc1 : janus_recorder) (w1 : world),
             healthy w1 = true ->
             exists r' w',
               (let '(o, rc2, w2) := save_frame_record rc1 b length w1 in
                (o, Some rc2, w2)) = (Returns 0, r', w')).
  { intros rc1 w1 Hw1.
    destruct (save_frame_record_healthy rc1 b length w1 Hw1)
      as [[Hshort _]|[_ (rest & _ & ->)]]; [lia | lia |].
    eexists _, _. reflexivity. }
  destruct (Z.eqb_spec (header rc) 0) as [Eh|Eh].
  - specialize (Hinfo Eh). unfold janus_get_real_time.
    set (wt := mkWorld (conn w) _ _ _ _ _ _ _).
    assert (Hwt : healthy wt = true) by exact Hw.
    change (info_text (set_mutex rc true) (real_time w (clock_reads w)))
      with (info_text rc (real_time w (clock_reads w))).
    set (text := info_text rc (real_time w (clock_reads w))) in *.
    destruct (info_block text) as [buf|] eqn:Eb.
    + destruct (info_sent_healthy text buf wt Hwt) as (_ & rest & Hrest & ->);
        [unfold SIZE_MAX; lia | exact Eb |].
      assert (0 <= strlen text) by (unfold strlen; lia).
      rewrite to_int_small by lia.
      destruct (Z.ltb_spec (2 + strlen text) 0) as [|_]; [lia|].
      apply Hrecord. now apply healthy_delivered.
    + exfalso. unfold info_block, staged in Eb.
      destruct (Z.ltb_spec RCBUFSIZ BUFSIZ) as [|_]; [lia|].
      rewrite length_app, length_stored, length_bytes_of in Eb.
      unfold strlen in Hinfo.
      destruct (Z.ltb_spec RCBUFSIZ
                  (Z.of_nat (2 + String.length text))) as [|_];
        [lia | discriminate].
  - apply Hrecord. exact Hw.
Qed.

End FrameSaved.

(** X21: when the connection is open and no [sendto] fails, a call of
    [janus_recorder_save_frame] on a writable recorder with a free mutex
    and a descriptor of 2 or more, with a payload of 1 to 2^31 - 1 bytes
    that the buffer holds, returns 0, provided the info header, when it is
    still to be written, fits the buffer of the recorder with its two
    length bytes.  The mutex is free again, the [header] flag is set, no
    [sendto] to come fails, and the peer has received the info header, if
    it was still to be written, and one frame record; the timestamp of a
    data frame is made of the readings of the clock that follow the one
    for the info header: the next one on a big-endian host, and the low
    half of one of the next two and the high half of the other on a
    little-endian host. *)
Theorem save_frame_succeeds `{Host} (rc : janus_recorder) (b : list byte)
    (length : Z) (w : world) :
  healthy w = true -> mutex rc = false -> writable rc <> 0 ->
  2 <= tcpsock rc -> 1 <= length < 2 ^ 31 ->
  length <= Z.of_nat (List.length b) ->
  BUFSIZ <= RCBUFSIZ < 2 ^ 31 ->
  (header rc = 0 ->
   2 + strlen (info_text rc (real_time w (clock_reads w))) <= RCBUFSIZ) ->
  exists rc' w',
    janus_recorder_save_frame (Some rc) (Some b) length w
      = (Returns 0, Some rc', w') /\
    mutex rc' = false /\ header rc' <> 0 /\ healthy w' = true /\
    wire (conn w') =
      wire (conn w)
      ++ (if header rc =? 0
          then metadata_block (info_text rc (real_time w (clock_reads w)))
          else [])
      ++ frame_record (type rc)
           (data_stamp w (clock_reads w
                          + (if (header rc =? 0)%Z then 1 else 0))%nat)
           (firstn (Z.to_nat length) b).
Proof.
  intros Hw Hm Hwr Hfd Hlen Hfit Hcap Hinfo.
  destruct (save_frame_returns_zero rc b length w Hw Hm Hwr Hfd Hlen Hfit
              Hcap Hinfo) as (r' & w' & E).
  destruct (save_frame_success rc (Some b) length w r' w' Hw) as
    (b' & rc' & Eb & _ & _ & _ & -> & Hm' & Hh' & _ & Hw' & Hwire);
    [unfold SIZE_MAX; lia | lia | exact E |].
  injection Eb as <-.
  exists rc', w'. repeat split; assumption.
Qed.

Lemma save_frame_succeeds_witness :
  let rc := Sample.data in
  let b := [x68; x69; x21] in
  let w := Sample.connected [send_accepts 1; send_accepts 5] in
  exists rc' w',
    @janus_recorder_save_frame Sample.host (Some rc) (Some b) 2 w
      = (Returns 0, Some rc', w') /\
    mutex rc' = false /\ header rc' <> 0 /\ healthy w' = true /\
    wire (conn w') =
      wire (conn w)
      ++ (if header rc =? 0
          then metadata_block
                 (@info_text Sample.host rc (real_time w (clock_reads w)))
          else [])
      ++ frame_record (type rc)
           (@data_stamp Sample.host w
              (clock_reads w + (if (header rc =? 0)%Z then 1 else 0))%nat)
           (firstn (Z.to_nat 2) b).
Proof.
  intros rc b w.
  apply (@save_frame_succeeds Sample.host rc b 2 w);
    try reflexivity; try (vm_compute; discriminate);
    try (cbn; lia); try (split; vm_compute; congruence).
Defined.

(** X22: creation followed by a first frame.  When no [sendto] fails, the
    first call of [janus_recorder_save_frame] on a recorder that
    [janus_recorder_create] made on a descriptor of 2 or more returns 0,
    and the peer has then received, in this order: the length of the name
    as a native 4-byte integer and the name; the native 4-byte integer 8
    and the tag [MJR00001]; the info header, whose [s] is the first
    reading of the clock and whose [u] is the second; and the frame
    record.  The timestamp of a data frame is the third reading on a
    big-endian host; on a little-endian host it has the low half of one
    of the third and fourth readings and the high half of the other (the
    low half of the third when the compiler evaluates the left operand of
    [|] first). *)
Theorem create_then_first_frame `{Host} (g : globals)
    (d cname name : option string) (w : world)
    (rc : janus_recorder) (w' : world) (b : list byte) (length : Z) :
  forallb accepting (pending (conn w)) = true ->
  janus_recorder_create g d cname name w = (Returns (Some rc), w') ->
  2 <= socket_fd w -> 1 <= length < 2 ^ 31 ->
  length <= Z.of_nat (List.length b) ->
  BUFSIZ <= RCBUFSIZ < 2 ^ 31 ->
  let first := real_time w (clock_reads w) in
  let second := real_time w (S (clock_reads w)) in
  let stamp := data_stamp w (S (S (clock_reads w))) in
  2 + strlen (info_text rc second) <= RCBUFSIZ ->
  created rc = first /\
  exists rc' w'',
    janus_recorder_save_frame (Some rc) (Some b) length w'
      = (Returns 0, Some rc', w'') /\
    wire (conn w'') =
      wire (conn w)
      ++ (stored 4 (strlen (filename rc)) ++ bytes_of (filename rc))
      ++ (stored 4 8 ++ bytes_of "MJR00001")
      ++ metadata_block (info_text rc second)
      ++ frame_record (type rc) stamp (firstn (Z.to_nat length) b).
Proof.
  intros Hp E Hfd Hlen Hfit Hcap first second stamp Hinfo.
  destruct (create_healthy g d cname name w rc w' Hp E)
    as (Hwr & Hh & Hm & Hw' & Hwire).
  destruct (create_success g d cname name w rc w' E)
    as (_ & (Ht & _) & (_ & Hcr & _) & (_ & _ & _ & Hclock & Hrt & _)).
  split; [exact Hcr|].
  destruct (save_frame_returns_zero rc b length w') as (r' & w'' & E');
    try assumption; try lia.
  { intros _. rewrite Hrt, Hclock. exact Hinfo. }
  destruct (save_frame_success rc (Some b) length w' r' w'' Hw')
    as (b' & rc' & Eb & _ & _ & _ & -> & _ & _ & _ & _ & Hwire');
    [unfold SIZE_MAX; lia | lia | exact E' |].
  injection Eb as <-.
  exists rc', w''. split; [exact E'|].
  rewrite Hwire', Hwire, Hh. unfold stamp, data_stamp.
  rewrite Hrt, Hclock. cbn [Z.eqb].
  rewrite Nat.add_1_r, <- !app_assoc. reflexivity.
Qed.

Lemma create_then_first_frame_witness :
  let w := Sample.world0 [send_accepts 2] in
  let w' := snd (@janus_recorder_create Sample.host globals_at_start
                   (Some "/tmp"%string) (Some "text"%string)
                   (Some "chat"%string) w) in
  let rc := Sample.data in
  let b := [x68; x69] in
  created rc = real_time w (clock_reads w) /\
  exists rc' w'',
    @janus_recorder_save_frame Sample.host (Some rc) (Some b) 2 w'
      = (Returns 0, Some rc', w'') /\
    wire (conn w'') =
      wire (conn w)
      ++ (@stored Sample.host 4 (strlen (filename rc))
          ++ bytes_of (filename rc))
      ++ (@stored Sample.host 4 8 ++ bytes_of "MJR00001")
      ++ metadata_block
           (@info_text Sample.host rc (real_time w (S (clock_reads w))))
      ++ frame_record (type rc)
           (@spliced (real_time w (S (S (clock_reads w))))
                     (real_time w (S (S (S (clock_reads w))))))
           (firstn (Z.to_nat 2) b).
Proof.
  intros w w' rc b.
  apply (@create_then_first_frame Sample.host globals_at_start
           (Some "/tmp"%string) (Some "text"%string) (Some "chat"%string)
           w rc w' b 2);
    try reflexivity; try (cbn; lia); try (vm_compute; discriminate);
    try (split; vm_compute; congruence).
Defined.
